(** * DriveHub booking API: the booking model and the three HTTP handlers

    A shallow embedding of [models/Booking.js] (the Mongoose schema) and of
    [server.js] (the upload middleware and the handlers of
    [POST /api/bookings], [GET /api/bookings/:bookingId] and
    [GET /api/bookings]).  The store, the upload directory, the token
    generator and the clock are threaded through the handlers as an explicit
    [World]. *)

From stdpp Require Import gmap strings list sorting pretty.

Open Scope string_scope.
Open Scope list_scope.
Open Scope Z_scope.

(** ** JavaScript values found in a request body

    [express.json()] yields JSON values, the multipart parser yields strings
    and containers of strings.  [JNum] holds the integer-valued numbers.
    [JObject] is an array ([array] is [true]; its items are the properties
    "0", "1", ...) or an object, with its own properties in order, each key
    once; it is always truthy and never [===] to a primitive. *)
Inductive JsVal : Type :=
| JUndefined
| JNull
| JBool (b : bool)
| JNum (n : Z)
| JStr (s : string)
| JObject (array : bool) (props : list (string * JsVal)).

(** [!v] is [negb (truthy v)]. *)
Definition truthy (v : JsVal) : bool :=
  match v with
  | JUndefined | JNull => false
  | JBool b => b
  | JNum n => negb (n =? 0)
  | JStr s => negb (bool_decide (s = ""))
  | JObject _ _ => true
  end.

(** [a === b] with a primitive on one side. *)
Definition strict_eq (a b : JsVal) : bool :=
  match a, b with
  | JUndefined, JUndefined | JNull, JNull => true
  | JBool x, JBool y => bool_decide (x = y)
  | JNum x, JNum y => bool_decide (x = y)
  | JStr x, JStr y => bool_decide (x = y)
  | _, _ => false
  end.

(** [a || b] *)
Definition js_or (a b : JsVal) : JsVal := if truthy a then a else b.

(** Reading a property of [req.body]: a missing key reads as [undefined]. *)
Definition prop (o : gmap string JsVal) (k : string) : JsVal :=
  default JUndefined (o !! k).

(** Reading an own property of an array or object. *)
Definition own (props : list (string * JsVal)) (k : string) : JsVal :=
  default JUndefined
    (snd <$> List.find (λ kv, bool_decide (fst kv = k)) props).

(** ** models/Booking.js *)

(** A stored document, every path already cast to its schema type. *)
Module Booking.
Record t : Type := mk {
  bookingId : string;
  name : string;
  contact : string;
  aadhar : string;
  aadharPhoto : string;
  license : string;
  licensePhoto : string;
  pickup : string;
  drop : string;
  pickupDate : Z;
  returnDate : Z;
  paymentMode : string;
  txnId : option string;
  aadhaarVerified : bool;
  createdAt : Z
}.
End Booking.

(** The object literal handed to [new Booking({...})], before casting.  A
    date is [Some t] (milliseconds since the epoch) or [None] for an Invalid
    Date. *)
Module Doc.
Record t : Type := mk {
  bookingId : string;
  name : JsVal;
  contact : JsVal;
  aadhar : JsVal;
  aadharPhoto : string;
  license : JsVal;
  licensePhoto : string;
  pickup : JsVal;
  drop : JsVal;
  pickupDate : option Z;
  returnDate : option Z;
  paymentMode : JsVal;
  txnId : JsVal;
  aadhaarVerified : bool
}.
End Doc.

(** ** Multipart file parts and stored files *)

(** A file part as it arrives. *)
Module Part.
Record t : Type := mk {
  fieldname : string;
  originalname : string;
  mimetype : string;
  size : Z
}.
End Part.

(** A file as the middleware leaves it in [req.files]. *)
Module File.
Record t : Type := mk {
  fieldname : string;
  originalname : string;
  mimetype : string;
  filename : string;
  size : Z
}.
End File.

Inductive UploadError : Type :=
| OnlyImageUploads                       (* Error('Only image uploads allowed') *)
| LIMIT_FILE_SIZE (field : string)
| LIMIT_UNEXPECTED_FILE (field : string).

(** State of the middleware while it walks the parts of one request. *)
Record Upload : Type := mkUpload {
  filesLeft : gmap string nat;
  req_files : gmap string (list File.t);
  uploadedFiles : list File.t
}.

(** What arrives on the wire: the parsed text fields and, for a multipart
    request, the file parts in order. *)
Record Incoming : Type := mkIncoming {
  in_body : gmap string JsVal;
  in_parts : option (list Part.t);
  in_query : gmap string JsVal
}.

(** What a handler sees.  [files] is [None] when the request was not
    multipart ([req.files] is [undefined]). *)
Record Req : Type := mkReq {
  body : gmap string JsVal;
  files : option (gmap string (list File.t));
  query : gmap string JsVal
}.

(** ** The world of the server *)

(** The bookings collection in insertion order, the names of the files in
    [UPLOAD_DIR], and how many tokens and clock readings were drawn. *)
Record World : Type := mkWorld {
  bookings : list Booking.t;
  uploads : gset string;
  drawn : nat;
  ticks : nat
}.

Definition set_bookings (bs : list Booking.t) (w : World) : World :=
  mkWorld bs (uploads w) (drawn w) (ticks w).

Definition set_uploads (u : gset string) (w : World) : World :=
  mkWorld (bookings w) u (drawn w) (ticks w).

Inductive SaveError : Type :=
| ValidationError
| DuplicateKey.

(** What the process takes from its runtime and from the libraries it
    loads, whose versions the repository does not pin:
    - the [Date] constructor ([None] for an Invalid Date), Node's
      [path.extname], the successive results of [shortid.generate()] and
      the successive readings of [Date.now()];
    - [Number_toString], the text of a number from 10^21 on, which the
      runtime prints in exponent form;
    - [limit_inclusive], whether the upload library refuses a file of
      exactly the size limit as well as every larger one;
    - [aborted_upload fs rest w], what an upload that fails leaves behind,
      given the files it had written, the parts it had not yet taken and
      the world at that moment: the upload directory, and how many tokens
      and clock readings the parts still in flight went on to use. *)
Class Platform : Type := {
  new_Date : JsVal → option Z;
  path_extname : string → string;
  shortid_generate : nat → string;
  Date_now : nat → Z;
  Number_toString : Z → string;
  limit_inclusive : bool;
  aborted_upload : list File.t → list Part.t → World → gset string * nat * nat
}.

(** ** The schema at work *)

(** [enum: ['UPI','Cash']] *)
Definition paymentMode_enum : list string := ["UPI"; "Cash"].

Section Schema.
Context `{Platform}.

(** [type: String]: strings are kept; numbers and booleans go through
    [toString()]; an array or object with a non-empty string [_id] is cast
    to that [_id], any other array or object is a cast error. *)
Definition cast_String (v : JsVal) : option string :=
  match v with
  | JStr s => Some s
  | JNum n =>
    Some (if bool_decide (Z.abs n < 10 ^ 21) then pretty n
          else Number_toString n)
  | JBool b => Some (if b then "true" else "false")
  | JObject _ props =>
    match own props "_id" with
    | JStr s => if bool_decide (s = "") then None else Some s
    | _ => None
    end
  | JUndefined | JNull => None
  end.

(** [{ type: String, required: true }]: the cast must succeed and the string
    must not be empty. *)
Definition required_String (v : JsVal) : option string :=
  match cast_String v with
  | Some s => if bool_decide (s = "") then None else Some s
  | None => None
  end.

(** [paymentMode: { type: String, enum: ['UPI','Cash'], default: 'UPI' }].
    The handler always passes a truthy value here. *)
Definition cast_paymentMode (v : JsVal) : option string :=
  match v with
  | JUndefined => Some "UPI"
  | _ =>
    match cast_String v with
    | Some s => if bool_decide (s ∈ paymentMode_enum) then Some s else None
    | None => None
    end
  end.

(** [txnId: { type: String }]: optional, [null] and [undefined] are kept as
    no value. *)
Definition cast_txnId (v : JsVal) : option (option string) :=
  match v with
  | JUndefined | JNull => Some None
  | _ => Some <$> cast_String v
  end.

(** Casting and validation of a whole document against [bookingSchema];
    [None] is a validation error.  [createdAt] is the value its default
    ([Date.now]) produced when the document was built. *)
Definition validate (d : Doc.t) (createdAt : Z) : option Booking.t :=
  name ← required_String (Doc.name d);
  contact ← required_String (Doc.contact d);
  aadhar ← required_String (Doc.aadhar d);
  license ← required_String (Doc.license d);
  pickup ← required_String (Doc.pickup d);
  drop ← required_String (Doc.drop d);
  pickupDate ← Doc.pickupDate d;
  returnDate ← Doc.returnDate d;
  paymentMode ← cast_paymentMode (Doc.paymentMode d);
  txnId ← cast_txnId (Doc.txnId d);
  if bool_decide (Doc.bookingId d = "") then None
  else
    Some (Booking.mk (Doc.bookingId d) name contact aadhar (Doc.aadharPhoto d)
            license (Doc.licensePhoto d) pickup drop pickupDate returnDate
            paymentMode txnId (Doc.aadhaarVerified d) createdAt).

End Schema.

(** ** Responses *)

Inductive Json : Type :=
| JError (error : string)
| JCreated (message : string) (bookingId : string) (booking : Booking.t)
| JBooking (booking : Booking.t)
| JBookings (bookings : list Booking.t)
| JMsg (msg : string).

Record Response : Type := mkResponse {
  status : Z;
  json : Json
}.

(** The error kinds of the specification, as the handler words them. *)
Definition MissingFields : Response :=
  mkResponse 400 (JError "Missing required fields").
Definition VerificationRequired : Response :=
  mkResponse 400 (JError "Aadhaar must be verified before booking").
Definition MissingDocuments : Response :=
  mkResponse 400 (JError "Aadhaar and License photos are required").
Definition ServerError : Response :=
  mkResponse 500 (JError "Server error").
Definition NotFound : Response :=
  mkResponse 404 (JError "Booking not found").

(** The outcome of a route: the middleware passed an error to [next] and
    the handler was skipped, or the handler answered. *)
Inductive Outcome : Type :=
| Failed (e : UploadError)
| Responded (r : Response).

Section Server.
Context `{Platform}.

(** [shortid.generate()] *)
Definition shortid (w : World) : string * World :=
  (shortid_generate (drawn w),
   mkWorld (bookings w) (uploads w) (S (drawn w)) (ticks w)).

(** [Date.now()] *)
Definition now (w : World) : Z * World :=
  (Date_now (ticks w),
   mkWorld (bookings w) (uploads w) (drawn w) (S (ticks w))).

(** [booking.save()]: validation, then the insert under the unique index
    on [bookingId]. *)
Definition save (d : Doc.t) (createdAt : Z) (w : World)
  : SaveError + (Booking.t * World) :=
  match validate d createdAt with
  | None => inl ValidationError
  | Some b =>
    if bool_decide (Booking.bookingId b ∈ (Booking.bookingId <$> bookings w))
    then inl DuplicateKey
    else inr (b, set_bookings (bookings w ++ [b]) w)
  end.

(** *** Multer

    [fileSize], [fileFilter], [storage_filename] and [fields] are the
    configuration written in [server.js]; [upload_part] and [upload_parts]
    are what the library does with it for the file parts of one request,
    taken in order, up to the first part that fails; what is left behind
    then is the platform's ([abort]). *)

(** The prefix of a stored reference, as in [`/uploads/${file.filename}`]. *)
Definition UPLOAD_URL : string := "/uploads/".

(** [limits: { fileSize: 5 * 1024 * 1024 }] *)
Definition fileSize : Z := 5 * 1024 * 1024.

(** Whether the size limit trips for a file of [size] bytes: always above
    the limit, never below it, and at exactly the limit as the installed
    library has it. *)
Definition limit_reached (size : Z) : bool :=
  (fileSize <? size) || (limit_inclusive && (size =? fileSize)).

(** [fileFilter]: an error, or whether to include the file. *)
Definition fileFilter (file : Part.t) : UploadError + bool :=
  if negb (String.prefix "image/" (Part.mimetype file))
  then inl OnlyImageUploads
  else inr true.

(** [storage.filename] *)
Definition storage_filename (file : Part.t) (w : World) : string * World :=
  let ext := path_extname (Part.originalname file) in
  let '(t, w1) := now w in
  let '(tok, w2) := shortid w1 in
  (pretty t +:+ "-" +:+ tok +:+ ext, w2).

(** [upload.fields([{ name: 'aadharPhoto', maxCount: 1 },
    { name: 'licensePhoto', maxCount: 1 }])] *)
Definition fields : list (string * nat) :=
  [("aadharPhoto", 1%nat); ("licensePhoto", 1%nat)].

Definition upload_init : Upload :=
  mkUpload (list_to_map fields) ∅ [].

(** One file part: the slot must have room, the filter must accept, the
    bytes are written under the generated name and the size limit trips
    while they are written.  A file that tripped the limit is listed among
    the files written. *)
Definition upload_part (p : Part.t) (st : Upload) (w : World)
  : option UploadError * Upload * World :=
  if bool_decide (Part.originalname p = "") then (None, st, w)
  else
    match filesLeft st !! Part.fieldname p with
    | Some (S n) =>
      let left := <[Part.fieldname p := n]> (filesLeft st) in
      match fileFilter p with
      | inl e => (Some e, mkUpload left (req_files st) (uploadedFiles st), w)
      | inr false => (None, mkUpload left (req_files st) (uploadedFiles st), w)
      | inr true =>
        let '(fname, w1) := storage_filename p w in
        let w2 := set_uploads ({[fname]} ∪ uploads w1) w1 in
        let f := File.mk (Part.fieldname p) (Part.originalname p)
                   (Part.mimetype p) fname (Part.size p) in
        if limit_reached (Part.size p)
        then (Some (LIMIT_FILE_SIZE (Part.fieldname p)),
              mkUpload left (req_files st) (uploadedFiles st ++ [f]), w2)
        else (None,
              mkUpload left
                (<[Part.fieldname p :=
                     default [] (req_files st !! Part.fieldname p) ++ [f]]>
                   (req_files st))
                (uploadedFiles st ++ [f]),
              w2)
      end
    | _ => (Some (LIMIT_UNEXPECTED_FILE (Part.fieldname p)), st, w)
    end.

(** The world after an upload that failed: the collection is untouched,
    the counters do not go back, the upload directory is what the library
    left of it. *)
Definition abort (fs : list File.t) (rest : list Part.t) (w : World) : World :=
  let '(dir, tokens, readings) := aborted_upload fs rest w in
  mkWorld (bookings w) dir (drawn w + tokens) (ticks w + readings).

Fixpoint upload_parts (ps : list Part.t) (st : Upload) (w : World)
  : (UploadError + Upload) * World :=
  match ps with
  | [] => (inr st, w)
  | p :: ps' =>
    match upload_part p st w with
    | (Some e, st', w') => (inl e, abort (uploadedFiles st') ps' w')
    | (None, st', w') => upload_parts ps' st' w'
    end
  end.

(** The middleware of the route. *)
Definition upload_fields (inc : Incoming) (w : World)
  : (UploadError + Req) * World :=
  match in_parts inc with
  | None => (inr (mkReq (in_body inc) None (in_query inc)), w)
  | Some ps =>
    match upload_parts ps upload_init w with
    | (inl e, w') => (inl e, w')
    | (inr st, w') =>
      (inr (mkReq (in_body inc) (Some (req_files st)) (in_query inc)), w')
    end
  end.

(** *** POST /api/bookings *)

(** [req.files && req.files[slot] && req.files[slot][0]] *)
Definition file_of (req : Req) (slot : string) : option File.t :=
  fs ← files req; l ← fs !! slot; head l.

(** The first gate: [!name || !contact || ... || !returnDate]. *)
Definition missing_required (b : gmap string JsVal) : bool :=
  negb (truthy (prop b "name")) || negb (truthy (prop b "contact"))
  || negb (truthy (prop b "aadhar")) || negb (truthy (prop b "license"))
  || negb (truthy (prop b "pickup")) || negb (truthy (prop b "drop"))
  || negb (truthy (prop b "pickupDate"))
  || negb (truthy (prop b "returnDate")).

(** The second gate:
    [!aadhaarVerified || (aadhaarVerified !== 'true' && aadhaarVerified !== true)]. *)
Definition not_verified (b : gmap string JsVal) : bool :=
  let aadhaarVerified := prop b "aadhaarVerified" in
  negb (truthy aadhaarVerified)
  || (negb (strict_eq aadhaarVerified (JStr "true"))
      && negb (strict_eq aadhaarVerified (JBool true))).

(** The object literal of [new Booking({...})]. *)
Definition booking_doc (bookingId : string) (b : gmap string JsVal)
    (aadharPhotoFile licensePhotoFile : File.t) : Doc.t :=
  let aadhaarVerified := prop b "aadhaarVerified" in
  Doc.mk bookingId
    (prop b "name")
    (prop b "contact")
    (prop b "aadhar")
    (UPLOAD_URL +:+ File.filename aadharPhotoFile)
    (prop b "license")
    (UPLOAD_URL +:+ File.filename licensePhotoFile)
    (prop b "pickup")
    (prop b "drop")
    (new_Date (prop b "pickupDate"))
    (new_Date (prop b "returnDate"))
    (js_or (prop b "paymentMode") (JStr "UPI"))
    (js_or (prop b "txnId") JNull)
    (strict_eq aadhaarVerified (JStr "true")
     || strict_eq aadhaarVerified (JBool true)).

Definition post_booking (req : Req) (w : World) : Response * World :=
  if missing_required (body req) then (MissingFields, w)
  else if not_verified (body req) then (VerificationRequired, w)
  else
    match file_of req "aadharPhoto", file_of req "licensePhoto" with
    | Some aadharPhotoFile, Some licensePhotoFile =>
      let '(tok, w1) := shortid w in
      let bookingId := "DH-" +:+ tok in
      let '(createdAt, w2) := now w1 in
      let d := booking_doc bookingId (body req)
                 aadharPhotoFile licensePhotoFile in
      match save d createdAt w2 with
      | inr (booking, w3) =>
        (mkResponse 201 (JCreated "Booking created" bookingId booking), w3)
      | inl _ => (ServerError, w2)
      end
    | _, _ => (MissingDocuments, w)
    end.

(** The whole route: middleware, then handler. *)
Definition POST_api_bookings (inc : Incoming) (w : World) : Outcome * World :=
  match upload_fields inc w with
  | (inl e, w') => (Failed e, w')
  | (inr req, w') =>
    let '(r, w'') := post_booking req w' in (Responded r, w'')
  end.

End Server.

(** ** GET /api/bookings/:bookingId *)

(** [Booking.findOne({ bookingId })] *)
Definition findOne (bookingId : string) (w : World) : option Booking.t :=
  List.find (λ b, bool_decide (Booking.bookingId b = bookingId)) (bookings w).

Definition get_booking (bookingId : string) (w : World) : Response :=
  match findOne bookingId w with
  | None => NotFound
  | Some b => mkResponse 200 (JBooking b)
  end.

(** ** GET /api/bookings *)

(** [sort({ createdAt: -1 })]: newest first. *)
Definition newer_first (a b : Booking.t) : Prop :=
  Booking.createdAt b ≤ Booking.createdAt a.

#[global] Instance newer_first_dec a b : Decision (newer_first a b).
Proof. unfold newer_first. apply _. Defined.

(** [Booking.find().sort({ createdAt: -1 }).limit(200)] *)
Definition find_recent (w : World) : list Booking.t :=
  take 200 (merge_sort newer_first (bookings w)).

Definition list_bookings (req : Req) (w : World) : Response :=
  mkResponse 200 (JBookings (find_recent w)).

(** ** A concrete platform, used to run the handlers on examples *)

Definition demo_new_Date (v : JsVal) : option Z :=
  match v with
  | JStr s =>
    if bool_decide (s = "2024-01-01") then Some 1704067200000
    else if bool_decide (s = "2024-01-05") then Some 1704412800000
    else None
  | JNum n => Some n
  | _ => None
  end.

(** A library that, on a failure, removes what the request had written and
    takes no further part. *)
Definition demo_aborted_upload (fs : list File.t) (rest : list Part.t)
    (w : World) : gset string * nat * nat :=
  (uploads w ∖ list_to_set (File.filename <$> fs), 0%nat, 0%nat).

Definition demo_platform : Platform :=
  {| new_Date := demo_new_Date;
     path_extname := λ _, ".jpg";
     shortid_generate := λ n, "tok" +:+ pretty n;
     Date_now := λ n, 1700000000000 + Z.of_nat n;
     Number_toString := λ n, pretty n;
     limit_inclusive := false;
     aborted_upload := demo_aborted_upload |}.

(** The same platform with a library that refuses a file of exactly the
    size limit. *)
Definition strict_platform : Platform :=
  {| new_Date := demo_new_Date;
     path_extname := λ _, ".jpg";
     shortid_generate := λ n, "tok" +:+ pretty n;
     Date_now := λ n, 1700000000000 + Z.of_nat n;
     Number_toString := λ n, pretty n;
     limit_inclusive := true;
     aborted_upload := demo_aborted_upload |}.

Definition empty_world : World := mkWorld [] ∅ 0 0.

(** The text fields of the example of the specification. *)
Definition demo_fields : gmap string JsVal :=
  list_to_map
    [("name", JStr "A"); ("contact", JStr "9999999999");
     ("aadhar", JStr "1234"); ("license", JStr "LIC1");
     ("pickup", JStr "X"); ("drop", JStr "Y");
     ("pickupDate", JStr "2024-01-01"); ("returnDate", JStr "2024-01-05");
     ("aadhaarVerified", JStr "true")].

Definition demo_jpeg (slot : string) : Part.t :=
  Part.mk slot "photo.jpg" "image/jpeg" 2048.

Definition demo_parts : list Part.t :=
  [demo_jpeg "aadharPhoto"; demo_jpeg "licensePhoto"].

Definition demo_incoming (b : gmap string JsVal) (ps : list Part.t) : Incoming :=
  mkIncoming b (Some ps) ∅.

(** The request the handler sees for [demo_incoming b ps], and the world the
    middleware leaves behind. *)
Definition demo_req_with (b : gmap string JsVal) (ps : list Part.t) : Req :=
  match fst (@upload_fields demo_platform (demo_incoming b ps) empty_world) with
  | inr r => r
  | inl _ => mkReq b None ∅
  end.

Definition demo_world_with (ps : list Part.t) : World :=
  snd (@upload_fields demo_platform (demo_incoming ∅ ps) empty_world).

Definition demo_req (b : gmap string JsVal) : Req := demo_req_with b demo_parts.

Definition demo_world : World := demo_world_with demo_parts.

(** The names of the required text fields. *)
Definition required_fields : list string :=
  ["name"; "contact"; "aadhar"; "license";
   "pickup"; "drop"; "pickupDate"; "returnDate"].

(** A text field that is absent or empty. *)
Definition absent_or_empty (b : gmap string JsVal) (k : string) : Prop :=
  b !! k = None ∨ b !! k = Some (JStr "").

(** The verification flag is the boolean [true] or the string ["true"]. *)
Definition flag_true (v : JsVal) : Prop := v = JBool true ∨ v = JStr "true".


(** The text fields stored as strings. *)
Definition string_fields : list string :=
  ["name"; "contact"; "aadhar"; "license"; "pickup"; "drop"].

(** The three answers of the validation gates. *)
Definition gate_rejection (r : Response) : Prop :=
  r = MissingFields ∨ r = VerificationRequired ∨ r = MissingDocuments.

(** Every file the middleware has accepted so far is in the upload
    directory, and [req.files] lists accepted files only. *)
Definition on_disk (st : Upload) (w : World) : Prop :=
  (∀ f, f ∈ uploadedFiles st → File.filename f ∈ uploads w)
  ∧ (∀ k l f, req_files st !! k = Some l → f ∈ l → f ∈ uploadedFiles st).




(** The fields of the example, paid in cash with a transaction id. *)
Definition cash_fields : gmap string JsVal :=
  <["txnId" := JStr "T1"]> (<["paymentMode" := JStr "Cash"]> demo_fields).

(** ** The router and runs of requests *)

(** A request to one of the four routes of [server.js]. *)
Inductive Request : Type :=
| GetRoot
| PostBooking (inc : Incoming)
| GetBooking (bookingId : string)
| ListBookings (req : Req).

Section Router.
Context `{Platform}.

(** What the server answers and the world it leaves.  The three [GET]
    routes only read. *)
Definition serve (rq : Request) (w : World) : Outcome * World :=
  match rq with
  | GetRoot => (Responded (mkResponse 200 (JMsg "DriveHub API running")), w)
  | PostBooking inc => POST_api_bookings inc w
  | GetBooking bookingId => (Responded (get_booking bookingId w), w)
  | ListBookings req => (Responded (list_bookings req w), w)
  end.

(** The world after a sequence of requests, served one after the other. *)
Definition run (rqs : list Request) (w : World) : World :=
  foldl (λ w rq, snd (serve rq w)) w rqs.

End Router.

(** What every booking written by the handler looks like. *)
Definition well_formed (b : Booking.t) : Prop :=
  String.prefix "DH-" (Booking.bookingId b) = true
  ∧ Booking.name b ≠ "" ∧ Booking.contact b ≠ "" ∧ Booking.aadhar b ≠ ""
  ∧ Booking.license b ≠ "" ∧ Booking.pickup b ≠ "" ∧ Booking.drop b ≠ ""
  ∧ String.prefix "/uploads/" (Booking.aadharPhoto b) = true
  ∧ String.prefix "/uploads/" (Booking.licensePhoto b) = true
  ∧ Booking.paymentMode b ∈ paymentMode_enum
  ∧ Booking.aadhaarVerified b = true.

(** Pairwise distinct ids, and well-formed bookings only. *)
Definition store_ok (w : World) : Prop :=
  NoDup (Booking.bookingId <$> bookings w) ∧ Forall well_formed (bookings w).

(** A world whose collection already holds the id that the third token of
    the concrete platform gives. *)
Definition taken_world : World :=
  mkWorld
    [Booking.mk "DH-tok2" "B" "8888888888" "5678" "/uploads/a.jpg" "LIC2"
       "/uploads/l.jpg" "P" "Q" 0 0 "UPI" None true 0]
    (uploads demo_world) (drawn demo_world) (ticks demo_world).

(** The slots declared to the middleware. *)
Definition declared_slots : list string := fst <$> fields.

(** A file accepted for slot [k]: filed under [k], an image by its declared
    content type, within the size limit. *)
Definition accepted_as (k : string) (f : File.t) : Prop :=
  File.fieldname f = k
  ∧ String.prefix "image/" (File.mimetype f) = true
  ∧ File.size f ≤ fileSize.

(** The bookkeeping of the middleware: a slot without a counter has no
    files, the files of a slot and the room left in it never exceed the one
    file a slot may hold, only declared slots have a counter, and an entry
    of [req.files] is a non-empty list of accepted files. *)
Definition slots_ok (st : Upload) : Prop :=
  (∀ k, filesLeft st !! k = None → req_files st !! k = None)
  ∧ (∀ k n, filesLeft st !! k = Some n →
       (length (default [] (req_files st !! k)) + n ≤ 1)%nat)
  ∧ (∀ k, k ∉ declared_slots → filesLeft st !! k = None)
  ∧ (∀ k l, req_files st !! k = Some l → l ≠ [] ∧ Forall (accepted_as k) l).


(** The bookings in insertion order have non-decreasing [createdAt]. *)
Definition oldest_first (l : list Booking.t) : Prop :=
  StronglySorted (λ a b, Booking.createdAt a ≤ Booking.createdAt b) l.

Section Clock.
Context `{Platform}.

(** A clock that never runs backwards. *)
Definition monotone_clock : Prop :=
  ∀ n m, (n ≤ m)%nat → Date_now n ≤ Date_now m.

(** Every booking carries a clock reading that was taken before now. *)
Definition stamped (w : World) : Prop :=
  ∀ b, b ∈ bookings w →
    ∃ k, (k < ticks w)%nat ∧ Booking.createdAt b = Date_now k.

End Clock.

(** ** Start-up *)

(** [process.env[k]] when it is truthy: set and not empty. *)
Definition env_truthy (env : gmap string string) (k : string) : option string :=
  match env !! k with
  | Some v => if bool_decide (v = "") then None else Some v
  | None => None
  end.

(** How the synchronous part of [server.js] ends: [process.exit(code)], or
    the server listening on [PORT] (a string from the environment, or the
    number 5000) with the connection to [MONGO_URI] requested. *)
Inductive Started : Type :=
| Exit (code : Z)
| Listening (PORT : string + Z) (MONGO_URI : string) (UPLOAD_DIR : string).

(** What start-up did: the directory it created, if any, and how it
    ended. *)
Record StartUp : Type := mkStartUp {
  mkdirSync : option string;
  started : Started
}.

(** The top level of [server.js] in the order it runs: the upload
    directory is resolved and created when missing, then the database URI
    is checked, then the port is resolved. *)
Definition start (env : gmap string string) (existsSync : string → bool)
  : StartUp :=
  let UPLOAD_DIR := default "uploads" (env_truthy env "UPLOAD_DIR") in
  let made := if negb (existsSync UPLOAD_DIR) then Some UPLOAD_DIR else None in
  match env_truthy env "MONGO_URI" with
  | None => mkStartUp made (Exit 1)
  | Some MONGO_URI =>
    let PORT := match env_truthy env "PORT" with
                | Some p => inl p
                | None => inr 5000
                end in
    mkStartUp made (Listening PORT MONGO_URI UPLOAD_DIR)
  end.

(** ** The gates *)

(** Membership in one of the literal lists above. *)
Ltac in_list :=
  unfold string_fields, required_fields, paymentMode_enum;
  repeat constructor.


Lemma absent_or_empty_falsy b k :
  absent_or_empty b k → truthy (prop b k) = false.
Proof. unfold prop. by intros [-> | ->]. Qed.

Lemma missing_required_true b k :
  k ∈ required_fields → truthy (prop b k) = false → missing_required b = true.
Proof.
  intros Hk Ht. unfold required_fields in Hk.
  repeat (apply elem_of_cons in Hk as [-> | Hk]);
    [.. | by apply elem_of_nil in Hk];
    unfold missing_required; rewrite Ht; simpl;
    by rewrite ?orb_true_r.
Qed.

Lemma missing_required_false b :
  missing_required b = false ↔ ∀ k, k ∈ required_fields → truthy (prop b k) = true.
Proof.
  split.
  - intros Hm k Hk. destruct (truthy (prop b k)) eqn:Ht; [done |].
    by rewrite (missing_required_true b k Hk Ht) in Hm.
  - intros Hall. unfold missing_required.
    rewrite !Hall; [done | in_list ..].
Qed.

Lemma not_verified_false b :
  not_verified b = false ↔ flag_true (prop b "aadhaarVerified").
Proof.
  unfold not_verified, flag_true.
  destruct (prop b "aadhaarVerified") as [| | [] | n | s | a ps]; simpl;
    try (split; [done | by intros [? | ?]]).
  - split; [by left | done].
  - destruct (n =? 0); simpl; (split; [done | by intros [? | ?]]).
  - repeat case_bool_decide; simplify_eq; simpl; try done; split;
      try done; try (by intros [? | ?]); try (by right);
      intros [? | ?]; by simplify_eq.
Qed.

Lemma flag_true_stored b :
  flag_true (prop b "aadhaarVerified") →
  strict_eq (prop b "aadhaarVerified") (JStr "true")
  || strict_eq (prop b "aadhaarVerified") (JBool true) = true.
Proof. by intros [-> | ->]. Qed.

Section Gates.
Context `{Platform}.

(** The outcomes of the handler, by the gate that decides. *)
Lemma post_booking_gate1 req w :
  missing_required (body req) = true →
  post_booking req w = (MissingFields, w).
Proof. intros Hm. unfold post_booking. by rewrite Hm. Qed.

Lemma post_booking_gate2 req w :
  missing_required (body req) = false →
  not_verified (body req) = true →
  post_booking req w = (VerificationRequired, w).
Proof. intros Hm Hv. unfold post_booking. by rewrite Hm, Hv. Qed.

Lemma post_booking_gate3 req w :
  missing_required (body req) = false →
  not_verified (body req) = false →
  file_of req "aadharPhoto" = None ∨ file_of req "licensePhoto" = None →
  post_booking req w = (MissingDocuments, w).
Proof.
  intros Hm Hv Hf. unfold post_booking. rewrite Hm, Hv.
  destruct Hf as [-> | ->]; [done |].
  by destruct (file_of req "aadharPhoto").
Qed.

(** A slot holds no file when the request was not multipart, when the slot
    has no entry, or when its entry is empty. *)
Lemma file_of_None req slot :
  file_of req slot = None ↔
  files req = None
  ∨ ∃ fs, files req = Some fs ∧ (fs !! slot = None ∨ fs !! slot = Some []).
Proof.
  unfold file_of. destruct (files req) as [fs |]; simpl.
  - destruct (fs !! slot) as [[| f l] |] eqn:Hslot; simpl.
    + split; [intros _; right; exists fs; by split; [| right] | done].
    + split; [done |]. intros [? | (fs' & ? & [? | ?])]; by simplify_eq.
    + split; [intros _; right; exists fs; by split; [| left] | done].
  - split; [by left | done].
Qed.

(** Past the three gates the handler draws a token, builds the document
    and saves it. *)
Lemma post_booking_passed req w af lf :
  missing_required (body req) = false →
  not_verified (body req) = false →
  file_of req "aadharPhoto" = Some af →
  file_of req "licensePhoto" = Some lf →
  post_booking req w =
    let w1 := snd (shortid w) in
    let bookingId := "DH-" +:+ shortid_generate (drawn w) in
    let w2 := snd (now w1) in
    match save (booking_doc bookingId (body req) af lf)
            (Date_now (ticks w)) w2 with
    | inr (booking, w3) =>
      (mkResponse 201 (JCreated "Booking created" bookingId booking), w3)
    | inl _ => (ServerError, w2)
    end.
Proof.
  intros Hm Hv Ha Hl. unfold post_booking. by rewrite Hm, Hv, Ha, Hl.
Qed.

(** A [201] answer tells that all three gates were passed and that the
    save went through. *)
Lemma post_booking_created req w msg id b w' :
  post_booking req w = (mkResponse 201 (JCreated msg id b), w') →
  ∃ af lf,
    missing_required (body req) = false ∧
    not_verified (body req) = false ∧
    file_of req "aadharPhoto" = Some af ∧
    file_of req "licensePhoto" = Some lf ∧
    id = "DH-" +:+ shortid_generate (drawn w) ∧
    save (booking_doc id (body req) af lf) (Date_now (ticks w))
      (snd (now (snd (shortid w)))) = inr (b, w').
Proof.
  unfold post_booking.
  destruct (missing_required (body req)) eqn:Hm; [done |].
  destruct (not_verified (body req)) eqn:Hv; [done |].
  destruct (file_of req "aadharPhoto") as [af |] eqn:Ha; [| done].
  destruct (file_of req "licensePhoto") as [lf |] eqn:Hl; [| done].
  simpl.
  destruct (save _ _ _) as [e | [b' w3]] eqn:Hs; [by unfold ServerError |].
  intros ?; simplify_eq. by exists af, lf.
Qed.

End Gates.

(** ** Claims on the gates *)

(** C1. A submission in which one of the text fields [name], [contact],
    [aadhar], [license], [pickup], [drop], [pickupDate], [returnDate] is
    absent or empty is answered with [MissingFields], whose status is 400,
    and the world (the bookings collection in particular) is left as it
    was.  The same holds for the whole route whenever the middleware hands
    the request to the handler. *)
Theorem C1_missing_fields_rejected `{Platform} (req : Req) (w : World) (k : string) :
  k ∈ required_fields →
  absent_or_empty (body req) k →
  post_booking req w = (MissingFields, w)
  ∧ status (fst (post_booking req w)) = 400
  ∧ bookings (snd (post_booking req w)) = bookings w
  ∧ ∀ inc w0, upload_fields inc w0 = (inr req, w) →
      POST_api_bookings inc w0 = (Responded MissingFields, w).
Proof.
  intros Hk Hab.
  assert (post_booking req w = (MissingFields, w)) as Hpost.
  { apply post_booking_gate1, (missing_required_true _ k); [done |].
    by apply absent_or_empty_falsy. }
  rewrite Hpost. repeat split.
  intros inc w0 Hup. unfold POST_api_bookings. by rewrite Hup, Hpost.
Qed.

Lemma C1_witness :
  "pickup" ∈ required_fields
  ∧ absent_or_empty (body (demo_req (<["pickup" := JStr ""]> demo_fields))) "pickup"
  ∧ @post_booking demo_platform
      (demo_req (<["pickup" := JStr ""]> demo_fields)) demo_world
    = (MissingFields, demo_world).
Proof.
  assert ("pickup" ∈ required_fields) as Hk by in_list.
  assert (absent_or_empty
            (body (demo_req (<["pickup" := JStr ""]> demo_fields))) "pickup")
    as Hab by (right; reflexivity).
  split; [exact Hk |]. split; [exact Hab |].
  exact (proj1 (@C1_missing_fields_rejected demo_platform _ demo_world _ Hk Hab)).
Defined.

(** C2. Past the required-field gate, the handler answers
    [VerificationRequired] (status 400) exactly when the verification flag
    is neither the boolean [true] nor the string ["true"] (absent, [false]
    and every other value included); it then leaves the world as it was.
    The boolean and the string are treated alike: replacing one by the
    other changes nothing in what the handler does. *)
Theorem C2_verification_gate `{Platform} (req : Req) (w : World) :
  missing_required (body req) = false →
  (fst (post_booking req w) = VerificationRequired
     ↔ ¬ flag_true (prop (body req) "aadhaarVerified"))
  ∧ (¬ flag_true (prop (body req) "aadhaarVerified") →
       post_booking req w = (VerificationRequired, w))
  ∧ status VerificationRequired = 400
  ∧ post_booking
      (mkReq (<["aadhaarVerified" := JBool true]> (body req)) (files req) (query req)) w
    = post_booking
        (mkReq (<["aadhaarVerified" := JStr "true"]> (body req)) (files req) (query req)) w.
Proof.
  intros Hm. split; [| split; [| split; [done |]]].
  - destruct (not_verified (body req)) eqn:Hv.
    + rewrite (post_booking_gate2 _ _ Hm Hv). simpl. split; [| done].
      intros _ Hflag. apply not_verified_false in Hflag. congruence.
    + assert (flag_true (prop (body req) "aadhaarVerified")) as Hflag
        by by apply not_verified_false.
      split; [| done]. intros Hr. exfalso. revert Hr.
      unfold post_booking. rewrite Hm, Hv.
      destruct (file_of req "aadharPhoto"), (file_of req "licensePhoto");
        simpl; try done.
      by destruct (save _ _ _) as [? | [? ?]].
  - intros Hflag. apply post_booking_gate2; [done |].
    destruct (not_verified (body req)) eqn:Hv; [done |].
    by apply not_verified_false in Hv.
  - unfold post_booking, missing_required, not_verified, booking_doc, file_of,
      prop; simpl.
    by rewrite !lookup_insert_eq, !lookup_insert_ne by done.
Qed.

Lemma C2_witness :
  missing_required (body (demo_req (<["aadhaarVerified" := JStr "yes"]> demo_fields))) = false
  ∧ fst (@post_booking demo_platform
           (demo_req (<["aadhaarVerified" := JStr "yes"]> demo_fields)) demo_world)
    = VerificationRequired.
Proof.
  assert (missing_required
            (body (demo_req (<["aadhaarVerified" := JStr "yes"]> demo_fields)))
          = false) as Hm by reflexivity.
  split; [exact Hm |].
  apply (proj2 (proj1 (@C2_verification_gate demo_platform _ demo_world Hm))).
  intros [Hf | Hf]; vm_compute in Hf; discriminate Hf.
Defined.

(** C3. Past the required-field and verification gates, a request in which
    the [aadharPhoto] slot or the [licensePhoto] slot holds no file is
    answered with [MissingDocuments] (status 400) and the world, the
    bookings collection in particular, is left as it was; so is the whole
    route when the middleware hands such a request over. *)
Theorem C3_missing_documents_rejected `{Platform} (req : Req) (w : World) :
  missing_required (body req) = false →
  not_verified (body req) = false →
  file_of req "aadharPhoto" = None ∨ file_of req "licensePhoto" = None →
  post_booking req w = (MissingDocuments, w)
  ∧ status MissingDocuments = 400
  ∧ bookings (snd (post_booking req w)) = bookings w
  ∧ ∀ inc w0, upload_fields inc w0 = (inr req, w) →
      POST_api_bookings inc w0 = (Responded MissingDocuments, w).
Proof.
  intros Hm Hv Hf. rewrite (post_booking_gate3 _ _ Hm Hv Hf).
  repeat split. intros inc w0 Hup. unfold POST_api_bookings.
  by rewrite Hup, (post_booking_gate3 _ _ Hm Hv Hf).
Qed.

Lemma C3_witness :
  missing_required (body (demo_req_with demo_fields [demo_jpeg "aadharPhoto"])) = false
  ∧ not_verified (body (demo_req_with demo_fields [demo_jpeg "aadharPhoto"])) = false
  ∧ file_of (demo_req_with demo_fields [demo_jpeg "aadharPhoto"]) "licensePhoto" = None
  ∧ @post_booking demo_platform
      (demo_req_with demo_fields [demo_jpeg "aadharPhoto"])
      (demo_world_with [demo_jpeg "aadharPhoto"])
    = (MissingDocuments, demo_world_with [demo_jpeg "aadharPhoto"]).
Proof.
  assert (missing_required
            (body (demo_req_with demo_fields [demo_jpeg "aadharPhoto"])) = false)
    as Hm by reflexivity.
  assert (not_verified
            (body (demo_req_with demo_fields [demo_jpeg "aadharPhoto"])) = false)
    as Hv by reflexivity.
  assert (file_of (demo_req_with demo_fields [demo_jpeg "aadharPhoto"])
            "licensePhoto" = None) as Hf by (vm_compute; reflexivity).
  split; [exact Hm |]. split; [exact Hv |]. split; [exact Hf |].
  exact (proj1 (@C3_missing_documents_rejected demo_platform _ _ Hm Hv
                  (or_intror Hf))).
Defined.

(** ** The schema and the save *)

Section Save.
Context `{Platform}.

Lemma required_String_Some v s :
  required_String v = Some s → cast_String v = Some s ∧ s ≠ "".
Proof.
  unfold required_String. destruct (cast_String v) as [s' |]; [| done].
  case_bool_decide; [done |]. by intros [= <-].
Qed.


Lemma truthy_str s : s ≠ "" → truthy (JStr s) = true.
Proof. intros Hs. simpl. by rewrite bool_decide_eq_false_2. Qed.

(** [paymentMode || 'UPI'] against the schema. *)
Lemma cast_paymentMode_or v m :
  cast_paymentMode (js_or v (JStr "UPI")) = Some m →
  m ∈ paymentMode_enum
  ∧ (truthy v = false → m = "UPI")
  ∧ (truthy v = true → cast_String v = Some m).
Proof.
  unfold js_or. destruct (truthy v) eqn:Ht.
  - unfold cast_paymentMode.
    destruct v; try done;
      (destruct (cast_String _) as [s' |] eqn:Hc; [| done]);
      (case_bool_decide; [| done]); by intros [= <-].
  - intros [= <-]. split; [| done]. in_list.
Qed.

(** [txnId || null] against the schema. *)
Lemma cast_txnId_or v o :
  cast_txnId (js_or v JNull) = Some o →
  (truthy v = false → o = None)
  ∧ (truthy v = true → ∃ s, cast_String v = Some s ∧ o = Some s).
Proof.
  unfold js_or. destruct (truthy v) eqn:Ht.
  - intros Hc. split; [done |]. intros _.
    assert (cast_txnId v = Some <$> cast_String v) as Hv by by destruct v.
    rewrite Hv in Hc. destruct (cast_String v) as [s |]; [| done].
    simpl in Hc. simplify_eq. by exists s.
  - by intros [= <-].
Qed.

Lemma validate_Some d t b :
  validate d t = Some b →
  Booking.bookingId b = Doc.bookingId d ∧ Doc.bookingId d ≠ ""
  ∧ required_String (Doc.name d) = Some (Booking.name b)
  ∧ required_String (Doc.contact d) = Some (Booking.contact b)
  ∧ required_String (Doc.aadhar d) = Some (Booking.aadhar b)
  ∧ Booking.aadharPhoto b = Doc.aadharPhoto d
  ∧ required_String (Doc.license d) = Some (Booking.license b)
  ∧ Booking.licensePhoto b = Doc.licensePhoto d
  ∧ required_String (Doc.pickup d) = Some (Booking.pickup b)
  ∧ required_String (Doc.drop d) = Some (Booking.drop b)
  ∧ Doc.pickupDate d = Some (Booking.pickupDate b)
  ∧ Doc.returnDate d = Some (Booking.returnDate b)
  ∧ cast_paymentMode (Doc.paymentMode d) = Some (Booking.paymentMode b)
  ∧ cast_txnId (Doc.txnId d) = Some (Booking.txnId b)
  ∧ Booking.aadhaarVerified b = Doc.aadhaarVerified d
  ∧ Booking.createdAt b = t.
Proof.
  unfold validate. intros Hv.
  destruct (required_String (Doc.name d)); [| done].
  destruct (required_String (Doc.contact d)); [| done].
  destruct (required_String (Doc.aadhar d)); [| done].
  destruct (required_String (Doc.license d)); [| done].
  destruct (required_String (Doc.pickup d)); [| done].
  destruct (required_String (Doc.drop d)); [| done].
  destruct (Doc.pickupDate d); [| done].
  destruct (Doc.returnDate d); [| done].
  destruct (cast_paymentMode (Doc.paymentMode d)); [| done].
  destruct (cast_txnId (Doc.txnId d)); [| done].
  simpl in Hv. case_bool_decide; [done |]. by simplify_eq.
Qed.


Lemma save_inr d t w b w' :
  save d t w = inr (b, w') →
  validate d t = Some b
  ∧ (Booking.bookingId b ∉ (Booking.bookingId <$> bookings w))
  ∧ w' = set_bookings (bookings w ++ [b]) w.
Proof.
  unfold save. destruct (validate d t) as [b' |]; [| done].
  case_bool_decide; [done |]. intros ?; by simplify_eq.
Qed.


(** The handler changes the collection only by appending the booking it
    answers with, and never touches the upload directory. *)
Lemma post_booking_world req w :
  uploads (snd (post_booking req w)) = uploads w
  ∧ (bookings (snd (post_booking req w)) = bookings w
     ∨ ∃ msg id b, fst (post_booking req w) = mkResponse 201 (JCreated msg id b)
         ∧ bookings (snd (post_booking req w)) = bookings w ++ [b]).
Proof.
  unfold post_booking.
  destruct (missing_required (body req)); [by split; [| left] |].
  destruct (not_verified (body req)); [by split; [| left] |].
  destruct (file_of req "aadharPhoto") as [af |]; [| by split; [| left]].
  destruct (file_of req "licensePhoto") as [lf |]; [| by split; [| left]].
  simpl. destruct (save _ _ _) as [e | [b w3]] eqn:Hs; simpl.
  - by split; [| left].
  - apply save_inr in Hs as (_ & _ & ->). split; [done |]. right. eauto.
Qed.

(** What a [201] answer says about the stored record, path by path. *)
Lemma post_booking_record req w msg id b w' :
  post_booking req w = (mkResponse 201 (JCreated msg id b), w') →
  ∃ af lf,
    file_of req "aadharPhoto" = Some af
    ∧ file_of req "licensePhoto" = Some lf
    ∧ validate (booking_doc id (body req) af lf) (Date_now (ticks w)) = Some b
    ∧ id = "DH-" +:+ shortid_generate (drawn w)
    ∧ flag_true (prop (body req) "aadhaarVerified")
    ∧ (Booking.bookingId b ∉ (Booking.bookingId <$> bookings w))
    ∧ bookings w' = bookings w ++ [b]
    ∧ uploads w' = uploads w.
Proof.
  intros Hp.
  apply post_booking_created in Hp as (af & lf & Hm & Hv & Ha & Hl & Hid & Hs).
  apply save_inr in Hs as (Hval & Hfresh & ->).
  exists af, lf. repeat split; try done.
  by apply not_verified_false.
Qed.

End Save.

(** ** Claims on the committed record *)







Section Accepts.
Context `{Platform}.


End Accepts.




(** C9, as stated, fails: a submission paid in cash that carries a
    transaction id is accepted and stored with [paymentMode] ["Cash"] and
    that [txnId]. *)
Lemma C9_counterexample :
  ∃ id b w',
    @post_booking demo_platform (demo_req cash_fields) demo_world
    = (mkResponse 201 (JCreated "Booking created" id b), w')
    ∧ b ∈ bookings w'
    ∧ Booking.paymentMode b = "Cash"
    ∧ Booking.txnId b = Some "T1".
Proof.
  eexists _, _, _. split; [vm_compute; reflexivity |].
  split; [| done]. apply list_elem_of_here.
Qed.

(** C9, amended. For every booking stored by the handler, [txnId] is
    present exactly when a non-empty [txnId] was submitted, and it is then
    the submitted one, whatever the [paymentMode] (which is ["UPI"] or
    ["Cash"]): a cash booking carries the [txnId] submitted with it. *)
Theorem C9_txnId_follows_submission `{Platform} (req : Req) (w w' : World)
    (msg id : string) (b : Booking.t) :
  post_booking req w = (mkResponse 201 (JCreated msg id b), w') →
  b ∈ bookings w'
  ∧ (is_Some (Booking.txnId b) ↔ truthy (prop (body req) "txnId") = true)
  ∧ (∀ t, prop (body req) "txnId" = JStr t → t ≠ "" → Booking.txnId b = Some t)
  ∧ (Booking.paymentMode b = "UPI" ∨ Booking.paymentMode b = "Cash").
Proof.
  intros Hp.
  apply post_booking_record in Hp
    as (af & lf & _ & _ & Hval & _ & _ & _ & Hbs & _).
  apply validate_Some in Hval
    as (_ & _ & _ & _ & _ & _ & _ & _ & _ & _ & _ & _ & Hpm & Htx & _).
  simpl in *.
  apply cast_paymentMode_or in Hpm as (Hin & _ & _).
  apply cast_txnId_or in Htx as (Htx0 & Htx1).
  split; [rewrite Hbs; apply elem_of_app; right; apply list_elem_of_here |].
  split; [| split].
  - destruct (truthy (prop (body req) "txnId")).
    + destruct Htx1 as (s & _ & ->); [done |]. by split; [| eexists].
    + rewrite Htx0 by done. split; [by intros [? ?] | done].
  - intros t Ht Hne. rewrite Ht in Htx1.
    destruct Htx1 as (s & Hs & ->); [by apply truthy_str |].
    simpl in Hs. by simplify_eq.
  - unfold paymentMode_enum in Hin.
    apply elem_of_cons in Hin as [-> | Hin]; [by left |].
    apply elem_of_cons in Hin as [-> | Hin]; [by right |].
    by apply elem_of_nil in Hin.
Qed.

Lemma C9_witness :
  ∃ id b w',
    @post_booking demo_platform (demo_req cash_fields) demo_world
    = (mkResponse 201 (JCreated "Booking created" id b), w')
    ∧ Booking.txnId b = Some "T1".
Proof.
  eexists _, _, _.
  assert (@post_booking demo_platform (demo_req cash_fields) demo_world
          = (mkResponse 201 (JCreated "Booking created" _ _), _)) as Hp
    by (vm_compute; reflexivity).
  split; [exact Hp |].
  destruct (@C9_txnId_follows_submission demo_platform _ _ _ _ _ _ Hp)
    as (_ & _ & Ht & _).
  apply (Ht "T1"); [reflexivity | discriminate].
Defined.

(** ** Listing *)

#[global] Instance newer_first_total : Total newer_first.
Proof. intros a b. unfold newer_first. lia. Qed.

#[global] Instance newer_first_trans : Transitive newer_first.
Proof. intros a b c. unfold newer_first. lia. Qed.

Lemma StronglySorted_newer_first_lookup (l : list Booking.t) (i j : nat) a b :
  StronglySorted newer_first l →
  (i ≤ j)%nat → l !! i = Some a → l !! j = Some b →
  Booking.createdAt b ≤ Booking.createdAt a.
Proof.
  intros Hs. revert i j. induction Hs as [| x l Hs IH Hall]; intros i j Hij Hi Hj.
  - done.
  - destruct i as [| i], j as [| j]; simpl in *; simplify_eq.
    + done.
    + rewrite Forall_forall in Hall. apply (Hall b).
      by apply list_elem_of_lookup_2 in Hj.
    + lia.
    + apply (IH i j); [lia | done | done].
Qed.

(** C7. Whatever the collection holds and whatever the caller asks for, the
    listing answers 200 with bookings in non-increasing [createdAt] order
    and with at most 200 of them: as many as the collection has, up to 200,
    all taken from the collection. *)
Theorem C7_listRecent_sorted_bounded (req : Req) (w : World) :
  ∃ l,
    list_bookings req w = mkResponse 200 (JBookings l)
    ∧ (∀ i j a b, (i ≤ j)%nat → l !! i = Some a → l !! j = Some b →
         Booking.createdAt b ≤ Booking.createdAt a)
    ∧ (length l ≤ 200)%nat
    ∧ length l = (200 `min` length (bookings w))%nat
    ∧ l ⊆+ bookings w.
Proof.
  exists (find_recent w). unfold list_bookings, find_recent.
  split; [done |]. split; [| split; [| split]].
  - intros i j a b. apply StronglySorted_newer_first_lookup.
    apply (StronglySorted_app_1_l _ _ (drop 200 (merge_sort newer_first (bookings w)))).
    rewrite take_drop. apply StronglySorted_merge_sort; apply _.
  - rewrite length_take. lia.
  - by rewrite length_take, (Permutation_length (merge_sort_Permutation _ _)).
  - etrans; [apply submseteq_take |].
    by rewrite (merge_sort_Permutation newer_first (bookings w)).
Qed.

(** ** The upload middleware *)

Section Multer.
Context `{Platform}.



Lemma limit_reached_false size : limit_reached size = false → size ≤ fileSize.
Proof.
  unfold limit_reached. intros [Hs _]%orb_false_elim. by apply Z.ltb_ge.
Qed.

(** An aborted upload leaves the collection alone and the clock readings
    do not go back. *)
Lemma abort_bookings fs rest w : bookings (abort fs rest w) = bookings w.
Proof. unfold abort. by destruct (aborted_upload fs rest w) as [[? ?] ?]. Qed.

Lemma abort_ticks fs rest w : (ticks w ≤ ticks (abort fs rest w))%nat.
Proof.
  unfold abort. destruct (aborted_upload fs rest w) as [[? ?] ?]. simpl. lia.
Qed.

Lemma storage_filename_world p w :
  bookings (snd (storage_filename p w)) = bookings w
  ∧ uploads (snd (storage_filename p w)) = uploads w.
Proof. done. Qed.

(** A part never touches the collection. *)
Lemma upload_part_bookings p st w :
  bookings (snd (upload_part p st w)) = bookings w.
Proof.
  unfold upload_part. case_bool_decide; [done |].
  destruct (filesLeft st !! Part.fieldname p) as [[| n] |]; try done.
  destruct (fileFilter p) as [e | []]; try done.
  simpl. by destruct (limit_reached (Part.size p)).
Qed.

Lemma upload_parts_bookings ps st w :
  bookings (snd (upload_parts ps st w)) = bookings w.
Proof.
  revert st w. induction ps as [| p ps IH]; intros st w; [done |].
  simpl. pose proof (upload_part_bookings p st w) as Hp.
  destruct (upload_part p st w) as [[[e |] st'] w']; simpl in *.
  - by rewrite abort_bookings.
  - by rewrite IH.
Qed.

Lemma upload_fields_bookings inc w :
  bookings (snd (upload_fields inc w)) = bookings w.
Proof.
  unfold upload_fields. destruct (in_parts inc) as [ps |]; [| done].
  pose proof (upload_parts_bookings ps upload_init w) as Hp.
  by destruct (upload_parts ps upload_init w) as [[e | st] w'].
Qed.






(** A part that passes keeps every accepted file on disk. *)
Lemma upload_part_on_disk p st w st' w' :
  upload_part p st w = (None, st', w') →
  on_disk st w →
  on_disk st' w' ∧ uploads w ⊆ uploads w'.
Proof.
  unfold upload_part. case_bool_decide.
  { intros ?; by simplify_eq. }
  destruct (filesLeft st !! Part.fieldname p) as [[| n] |]; try done.
  destruct (fileFilter p) as [e | []]; try done.
  - simpl. destruct (limit_reached (Part.size p)); [done |].
    intros ? [Hdisk Hlisted]; simplify_eq. split; [| set_solver].
    split; simpl.
    + intros f [Hf | Hf%list_elem_of_singleton]%elem_of_app.
      * apply Hdisk in Hf. set_solver.
      * subst f. set_solver.
    + intros k l f Hk Hf. apply elem_of_app.
      destruct (decide (Part.fieldname p = k)) as [<- | Hne].
      * rewrite lookup_insert_eq in Hk. simplify_eq.
        apply elem_of_app in Hf as [Hf | Hf]; [left | by right].
        destruct (req_files st !! Part.fieldname p) as [l0 |] eqn:Hl0;
          simpl in Hf; [by eapply Hlisted | by apply elem_of_nil in Hf].
      * rewrite lookup_insert_ne in Hk by done. left. by eapply Hlisted.
  - intros ? [Hdisk Hlisted]; by simplify_eq.
Qed.

Lemma upload_parts_on_disk ps st w st' w' :
  upload_parts ps st w = (inr st', w') →
  on_disk st w →
  on_disk st' w' ∧ uploads w ⊆ uploads w'.
Proof.
  revert st w. induction ps as [| p ps IH]; intros st w; simpl.
  { intros ?; by simplify_eq. }
  destruct (upload_part p st w) as [[[e |] st1] w1] eqn:Hp; [done |].
  intros Hps Hdisk.
  destruct (upload_part_on_disk _ _ _ _ _ Hp Hdisk) as [Hdisk1 Hsub1].
  destruct (IH _ _ Hps Hdisk1) as [Hdisk' Hsub']. split; [done |].
  by etrans.
Qed.

(** The files the handler is given are in the upload directory. *)
Lemma upload_fields_on_disk inc w req w1 :
  upload_fields inc w = (inr req, w1) →
  uploads w ⊆ uploads w1
  ∧ ∀ fs slot l f, files req = Some fs → fs !! slot = Some l → f ∈ l →
      File.filename f ∈ uploads w1.
Proof.
  unfold upload_fields. destruct (in_parts inc) as [ps |].
  - destruct (upload_parts ps upload_init w) as [[e | st] w'] eqn:Hps; [done |].
    intros ?; simplify_eq. simpl.
    destruct (upload_parts_on_disk _ _ _ _ _ Hps) as [[Hdisk Hlisted] Hsub].
    { split; [by intros f Hf%elem_of_nil | by intros k l f Hk]. }
    split; [done |]. intros fs slot l f ? Hslot Hf; simplify_eq.
    eapply Hdisk, Hlisted; eauto.
  - intros ?; by simplify_eq.
Qed.

(** A slot that no part of the request names stays empty. *)
Lemma upload_part_other_slot p st w slot :
  Part.fieldname p ≠ slot →
  req_files (snd (fst (upload_part p st w))) !! slot = req_files st !! slot.
Proof.
  intros Hne. unfold upload_part. case_bool_decide; [done |].
  destruct (filesLeft st !! Part.fieldname p) as [[| n] |]; try done.
  destruct (fileFilter p) as [e | []]; try done.
  simpl. destruct (limit_reached (Part.size p)); simpl; [done |].
  by rewrite lookup_insert_ne.
Qed.

Lemma upload_parts_other_slot ps st w st' w' slot :
  Forall (λ p, Part.fieldname p ≠ slot) ps →
  upload_parts ps st w = (inr st', w') →
  req_files st' !! slot = req_files st !! slot.
Proof.
  intros Hall. revert st w.
  induction Hall as [| p ps Hp Hall IH]; intros st w; simpl.
  { intros ?; by simplify_eq. }
  pose proof (upload_part_other_slot p st w slot Hp) as Hslot.
  destruct (upload_part p st w) as [[[e |] st1] w1]; [done |].
  intros Hps. simpl in Hslot. rewrite <- Hslot. by eapply IH.
Qed.

Lemma upload_fields_unfilled inc w req w1 slot :
  upload_fields inc w = (inr req, w1) →
  (∀ ps, in_parts inc = Some ps → Forall (λ p, Part.fieldname p ≠ slot) ps) →
  file_of req slot = None.
Proof.
  unfold upload_fields, file_of. destruct (in_parts inc) as [ps |].
  - destruct (upload_parts ps upload_init w) as [[e | st] w'] eqn:Hps; [done |].
    intros ? Hall; simplify_eq. simpl.
    by rewrite (upload_parts_other_slot _ _ _ _ _ slot (Hall _ eq_refl) Hps).
  - intros ? _; by simplify_eq.
Qed.

(** A gate rejection leaves the world as the middleware left it. *)
Lemma post_booking_gate_rejection req w r w' :
  post_booking req w = (r, w') → gate_rejection r → w' = w.
Proof.
  unfold post_booking.
  destruct (missing_required (body req)); [by intros ?; simplify_eq |].
  destruct (not_verified (body req)); [by intros ?; simplify_eq |].
  destruct (file_of req "aadharPhoto"); [| by intros ?; simplify_eq].
  destruct (file_of req "licensePhoto"); [| by intros ?; simplify_eq].
  simpl. destruct (save _ _ _) as [e | [b w3]]; intros ?; simplify_eq;
    by intros [? | [? | ?]].
Qed.

End Multer.

(** ** Claims on File Intake *)




(** C10. When File Intake has accepted the files of a submission and one
    of the three gates then rejects it, the handler leaves the world as the
    middleware left it: every file listed in [req.files] is still in the
    upload directory, nothing that was there before the request is gone,
    and the collection is unchanged.  Storing comes first; the gates run on
    what the middleware hands over. *)
Theorem C10_files_remain_after_gate_rejection `{Platform} (inc : Incoming)
    (w w1 w2 : World) (req : Req) (r : Response) :
  upload_fields inc w = (inr req, w1) →
  post_booking req w1 = (r, w2) →
  gate_rejection r →
  POST_api_bookings inc w = (Responded r, w2)
  ∧ w2 = w1
  ∧ bookings w2 = bookings w
  ∧ uploads w ⊆ uploads w2
  ∧ ∀ fs slot l f, files req = Some fs → fs !! slot = Some l → f ∈ l →
      File.filename f ∈ uploads w2.
Proof.
  intros Hup Hpost Hrej.
  pose proof (post_booking_gate_rejection _ _ _ _ Hpost Hrej) as ->.
  pose proof (upload_fields_bookings inc w) as Hb. rewrite Hup in Hb.
  destruct (upload_fields_on_disk _ _ _ _ Hup) as [Hsub Hdisk].
  split; [| done].
  unfold POST_api_bookings. by rewrite Hup, Hpost.
Qed.

Lemma C10_witness :
  @POST_api_bookings demo_platform
    (demo_incoming (delete "aadhaarVerified" demo_fields) demo_parts) empty_world
  = (Responded VerificationRequired, demo_world)
  ∧ elements (uploads demo_world)
    = ["1700000000001-tok1.jpg"; "1700000000000-tok0.jpg"].
Proof.
  split; [| vm_compute; reflexivity].
  refine (proj1 (@C10_files_remain_after_gate_rejection demo_platform
    (demo_incoming (delete "aadhaarVerified" demo_fields) demo_parts)
    empty_world demo_world demo_world
    (demo_req (delete "aadhaarVerified" demo_fields))
    VerificationRequired _ _ _)).
  - vm_compute; reflexivity.
  - vm_compute; reflexivity.
  - right; left; reflexivity.
Defined.

(** ** The examples of the specification, run on the concrete platform *)

(** The full payload with two small JPEG parts is answered 201 with an id
    of the form [DH-...] and a verified booking. *)
Example example_created :
  ∃ b w',
    @POST_api_bookings demo_platform (demo_incoming demo_fields demo_parts)
      empty_world
    = (Responded (mkResponse 201 (JCreated "Booking created" "DH-tok2" b)), w')
    ∧ Booking.aadhaarVerified b = true
    ∧ Booking.aadharPhoto b = "/uploads/1700000000000-tok0.jpg"
    ∧ bookings w' = [b].
Proof. eexists _, _. split; [vm_compute; reflexivity | done]. Qed.

(** The same payload without the flag is answered 400 and nothing is
    stored. *)
Example example_flag_omitted :
  ∃ w',
    @POST_api_bookings demo_platform
      (demo_incoming (delete "aadhaarVerified" demo_fields) demo_parts)
      empty_world
    = (Responded
         (mkResponse 400 (JError "Aadhaar must be verified before booking")), w')
    ∧ bookings w' = [].
Proof. eexists. split; [vm_compute; reflexivity | done]. Qed.

(** A [paymentMode] outside the enum passes the gates and fails in the
    save. *)
Example example_payment_mode_card :
  fst (@POST_api_bookings demo_platform
         (demo_incoming (<["paymentMode" := JStr "Card"]> demo_fields) demo_parts)
         empty_world)
  = Responded ServerError.
Proof. vm_compute; reflexivity. Qed.

(** A second file in a slot and a file in an undeclared slot are refused
    before the filter is asked. *)
Example example_unexpected_file :
  fst (@upload_parts demo_platform
         [demo_jpeg "aadharPhoto"; demo_jpeg "aadharPhoto"]
         upload_init empty_world)
  = inl (LIMIT_UNEXPECTED_FILE "aadharPhoto")
  ∧ fst (@upload_parts demo_platform [demo_jpeg "selfie"]
           upload_init empty_world)
    = inl (LIMIT_UNEXPECTED_FILE "selfie").
Proof. split; vm_compute; reflexivity. Qed.

(** Three bookings listed newest first. *)
Example example_listing :
  Booking.createdAt <$>
    find_recent
      (mkWorld
         ((λ t, Booking.mk "DH-x" "A" "9" "1" "/uploads/a" "L" "/uploads/l"
                  "X" "Y" 0 0 "UPI" None true t) <$> [10; 30; 20])
         ∅ 0 0)
  = [30; 20; 10].
Proof. vm_compute; reflexivity. Qed.

(** ** More on the handler of POST /api/bookings *)

Lemma missing_required_falsy b :
  missing_required b = true →
  ∃ k, k ∈ required_fields ∧ truthy (prop b k) = false.
Proof.
  intros Hm.
  destruct (truthy (prop b "name")) eqn:H1; [| exists "name"; split; [in_list | done]].
  destruct (truthy (prop b "contact")) eqn:H2; [| exists "contact"; split; [in_list | done]].
  destruct (truthy (prop b "aadhar")) eqn:H3; [| exists "aadhar"; split; [in_list | done]].
  destruct (truthy (prop b "license")) eqn:H4; [| exists "license"; split; [in_list | done]].
  destruct (truthy (prop b "pickup")) eqn:H5; [| exists "pickup"; split; [in_list | done]].
  destruct (truthy (prop b "drop")) eqn:H6; [| exists "drop"; split; [in_list | done]].
  destruct (truthy (prop b "pickupDate")) eqn:H7; [| exists "pickupDate"; split; [in_list | done]].
  destruct (truthy (prop b "returnDate")) eqn:H8; [| exists "returnDate"; split; [in_list | done]].
  unfold missing_required in Hm. by rewrite H1, H2, H3, H4, H5, H6, H7, H8 in Hm.
Qed.

Section Handler.
Context `{Platform}.

(** The handler, case by case. *)
Lemma post_booking_cases req w :
  (gate_rejection (fst (post_booking req w)) ∧ snd (post_booking req w) = w)
  ∨ (fst (post_booking req w) = ServerError
     ∧ snd (post_booking req w)
       = mkWorld (bookings w) (uploads w) (S (drawn w)) (S (ticks w)))
  ∨ (∃ b, fst (post_booking req w)
          = mkResponse 201
              (JCreated "Booking created" ("DH-" +:+ shortid_generate (drawn w)) b)
        ∧ snd (post_booking req w)
          = mkWorld (bookings w ++ [b]) (uploads w) (S (drawn w)) (S (ticks w))).
Proof.
  unfold post_booking, gate_rejection.
  destruct (missing_required (body req)); [left; split; [by left | done] |].
  destruct (not_verified (body req)); [left; split; [by right; left | done] |].
  destruct (file_of req "aadharPhoto") as [af |];
    [| left; split; [by right; right | done]].
  destruct (file_of req "licensePhoto") as [lf |];
    [| left; split; [by right; right | done]].
  simpl. destruct (save _ _ _) as [e | [b w3]] eqn:Hs; simpl.
  - right; left. done.
  - right; right. apply save_inr in Hs as (_ & _ & ->). by exists b.
Qed.

(** Past the gates, a save that fails is answered 500. *)
Lemma post_booking_save_fails req w af lf :
  missing_required (body req) = false →
  not_verified (body req) = false →
  file_of req "aadharPhoto" = Some af →
  file_of req "licensePhoto" = Some lf →
  (∀ b w', save (booking_doc ("DH-" +:+ shortid_generate (drawn w)) (body req) af lf)
             (Date_now (ticks w)) (snd (now (snd (shortid w)))) ≠ inr (b, w')) →
  post_booking req w
  = (ServerError, mkWorld (bookings w) (uploads w) (S (drawn w)) (S (ticks w))).
Proof.
  intros Hm Hv Haf Hlf Hs. rewrite (post_booking_passed req w af lf Hm Hv Haf Hlf).
  simpl in *. destruct (save _ _ _) as [e | [b w3]] eqn:Hsave; [done |].
  by destruct (Hs b w3).
Qed.

End Handler.

(** X1. The handler answers [MissingFields] exactly when one of the eight
    required fields is falsy: absent, [null], the empty string, the number
    0 or [false]. *)
Theorem X1_missing_fields_iff_falsy `{Platform} (req : Req) (w : World) :
  fst (post_booking req w) = MissingFields
  ↔ ∃ k, k ∈ required_fields ∧ truthy (prop (body req) k) = false.
Proof.
  split.
  - intros Hr. apply missing_required_falsy.
    destruct (missing_required (body req)) eqn:Hm; [done |]. exfalso.
    revert Hr. unfold post_booking. rewrite Hm.
    destruct (not_verified (body req)); [done |].
    destruct (file_of req "aadharPhoto"), (file_of req "licensePhoto");
      simpl; try done.
    by destruct (save _ _ _) as [? | [? ?]].
  - intros (k & Hk & Ht).
    by rewrite (post_booking_gate1 _ _ (missing_required_true _ k Hk Ht)).
Qed.


(** X3. When the id made from the next token is already in the collection,
    a submission that passes the three gates is answered 500 and the
    collection keeps its bookings as they were: there is no second try and
    nothing is overwritten. *)
Theorem X3_id_collision_is_server_error `{Platform} (req : Req) (w : World)
    (af lf : File.t) :
  missing_required (body req) = false →
  not_verified (body req) = false →
  file_of req "aadharPhoto" = Some af →
  file_of req "licensePhoto" = Some lf →
  ("DH-" +:+ shortid_generate (drawn w)) ∈ (Booking.bookingId <$> bookings w) →
  fst (post_booking req w) = ServerError
  ∧ bookings (snd (post_booking req w)) = bookings w.
Proof.
  intros Hm Hv Haf Hlf Hin.
  rewrite (post_booking_save_fails req w af lf Hm Hv Haf Hlf); [done |].
  intros b w' Hs. apply save_inr in Hs as (Hval & Hfresh & _).
  apply validate_Some in Hval as (Hid & _). simpl in *. by rewrite Hid in Hfresh.
Qed.

Lemma X3_witness :
  fst (@post_booking demo_platform (demo_req demo_fields) taken_world) = ServerError
  ∧ bookings (snd (@post_booking demo_platform (demo_req demo_fields) taken_world))
    = bookings taken_world.
Proof.
  apply (@X3_id_collision_is_server_error demo_platform (demo_req demo_fields)
           taken_world
           (File.mk "aadharPhoto" "photo.jpg" "image/jpeg"
              "1700000000000-tok0.jpg" 2048)
           (File.mk "licensePhoto" "photo.jpg" "image/jpeg"
              "1700000000001-tok1.jpg" 2048)).
  - reflexivity.
  - reflexivity.
  - vm_compute; reflexivity.
  - vm_compute; reflexivity.
  - vm_compute. apply list_elem_of_here.
Defined.

(** X4. A [paymentMode] that is non-empty but does not read as ["UPI"] or
    ["Cash"] gets through the three gates and fails in the save: the answer
    is 500, not 400, and nothing is stored. *)
Theorem X4_payment_mode_outside_enum `{Platform} (req : Req) (w : World)
    (af lf : File.t) :
  missing_required (body req) = false →
  not_verified (body req) = false →
  file_of req "aadharPhoto" = Some af →
  file_of req "licensePhoto" = Some lf →
  truthy (prop (body req) "paymentMode") = true →
  (∀ m, cast_String (prop (body req) "paymentMode") = Some m →
        m ∉ paymentMode_enum) →
  fst (post_booking req w) = ServerError
  ∧ bookings (snd (post_booking req w)) = bookings w.
Proof.
  intros Hm Hv Haf Hlf Ht Hout.
  rewrite (post_booking_save_fails req w af lf Hm Hv Haf Hlf); [done |].
  intros b w' Hs. apply save_inr in Hs as (Hval & _).
  apply validate_Some in Hval
    as (_ & _ & _ & _ & _ & _ & _ & _ & _ & _ & _ & _ & Hpm & _).
  simpl in Hpm. apply cast_paymentMode_or in Hpm as (Hin & _ & Hcast).
  by apply (Hout _ (Hcast Ht)).
Qed.

Lemma X4_witness :
  fst (@post_booking demo_platform
         (demo_req (<["paymentMode" := JStr "Card"]> demo_fields)) demo_world)
  = ServerError
  ∧ bookings (snd (@post_booking demo_platform
         (demo_req (<["paymentMode" := JStr "Card"]> demo_fields)) demo_world))
    = bookings demo_world.
Proof.
  apply (@X4_payment_mode_outside_enum demo_platform
           (demo_req (<["paymentMode" := JStr "Card"]> demo_fields)) demo_world
           (File.mk "aadharPhoto" "photo.jpg" "image/jpeg"
              "1700000000000-tok0.jpg" 2048)
           (File.mk "licensePhoto" "photo.jpg" "image/jpeg"
              "1700000000001-tok1.jpg" 2048)).
  - reflexivity.
  - reflexivity.
  - vm_compute; reflexivity.
  - vm_compute; reflexivity.
  - reflexivity.
  - intros m Hm. vm_compute in Hm. injection Hm as <-.
    intros Hin. unfold paymentMode_enum in Hin.
    apply elem_of_cons in Hin as [Hin | Hin]; [discriminate Hin |].
    apply elem_of_cons in Hin as [Hin | Hin]; [discriminate Hin |].
    by apply elem_of_nil in Hin.
Defined.

(** X5. A date the runtime cannot read ([new Date] gives an Invalid Date)
    in [pickupDate] or [returnDate] gets through the three gates and fails
    in the save: the answer is 500 and nothing is stored. *)
Theorem X5_unreadable_field_is_server_error `{Platform} (req : Req) (w : World)
    (af lf : File.t) :
  missing_required (body req) = false →
  not_verified (body req) = false →
  file_of req "aadharPhoto" = Some af →
  file_of req "licensePhoto" = Some lf →
  new_Date (prop (body req) "pickupDate") = None
  ∨ new_Date (prop (body req) "returnDate") = None →
  fst (post_booking req w) = ServerError
  ∧ bookings (snd (post_booking req w)) = bookings w.
Proof.
  intros Hm Hv Haf Hlf Hbad.
  rewrite (post_booking_save_fails req w af lf Hm Hv Haf Hlf); [done |].
  intros b w' Hs. apply save_inr in Hs as (Hval & _).
  apply validate_Some in Hval
    as (_ & _ & _ & _ & _ & _ & _ & _ & _ & _ & Hpd & Hrd & _).
  simpl in *. destruct Hbad as [Hbad | Hbad]; congruence.
Qed.

Lemma X5_witness :
  fst (@post_booking demo_platform
         (demo_req (<["returnDate" := JStr "next week"]> demo_fields)) demo_world)
  = ServerError
  ∧ bookings (snd (@post_booking demo_platform
         (demo_req (<["returnDate" := JStr "next week"]> demo_fields)) demo_world))
    = bookings demo_world.
Proof.
  apply (@X5_unreadable_field_is_server_error demo_platform
           (demo_req (<["returnDate" := JStr "next week"]> demo_fields)) demo_world
           (File.mk "aadharPhoto" "photo.jpg" "image/jpeg"
              "1700000000000-tok0.jpg" 2048)
           (File.mk "licensePhoto" "photo.jpg" "image/jpeg"
              "1700000000001-tok1.jpg" 2048)).
  - reflexivity.
  - reflexivity.
  - vm_compute; reflexivity.
  - vm_compute; reflexivity.
  - right. reflexivity.
Defined.

(** ** More on the upload middleware *)

Lemma upload_init_slots_ok : slots_ok upload_init.
Proof.
  unfold slots_ok, upload_init, declared_slots, fields. simpl.
  split; [done |]. split; [| split; [| done]].
  - intros k n Hk. rewrite lookup_empty. simpl.
    destruct (decide (k = "aadharPhoto")) as [-> | H1];
      [rewrite lookup_insert_eq in Hk; simplify_eq; lia |].
    rewrite lookup_insert_ne in Hk by done.
    destruct (decide (k = "licensePhoto")) as [-> | H2];
      [rewrite lookup_insert_eq in Hk; simplify_eq; lia |].
    by rewrite lookup_insert_ne in Hk by done.
  - intros k Hk.
    rewrite !lookup_insert_ne; [done | ..]; intros <-; apply Hk; repeat constructor.
Qed.

Section Intake.
Context `{Platform}.


(** A part that does not fail keeps the bookkeeping in order. *)
Lemma upload_part_slots_ok p st w st' w' :
  upload_part p st w = (None, st', w') → slots_ok st → slots_ok st'.
Proof.
  unfold upload_part, fileFilter. case_bool_decide.
  { intros ?; by simplify_eq. }
  destruct (filesLeft st !! Part.fieldname p) as [[| n] |] eqn:Hleft; try done.
  destruct (String.prefix "image/" (Part.mimetype p)) eqn:Hmime; simpl; [| done].
  destruct (limit_reached (Part.size p)) eqn:Hsize; [done |].
  apply limit_reached_false in Hsize.
  intros ? (Hnone & Hroom & Hdecl & Hacc); simplify_eq.
  split; [| split; [| split]]; simpl.
  - intros k Hk. destruct (decide (Part.fieldname p = k)) as [<- | Hne].
    + by rewrite lookup_insert_eq in Hk.
    + rewrite lookup_insert_ne in Hk by done.
      rewrite lookup_insert_ne by done. by apply Hnone.
  - intros k m Hk. destruct (decide (Part.fieldname p = k)) as [<- | Hne].
    + rewrite lookup_insert_eq in Hk. rewrite lookup_insert_eq. simplify_eq.
      simpl. rewrite length_app. simpl. specialize (Hroom _ _ Hleft). lia.
    + rewrite lookup_insert_ne in Hk by done.
      rewrite lookup_insert_ne by done. by apply Hroom.
  - intros k Hk. specialize (Hdecl k Hk).
    destruct (decide (Part.fieldname p = k)) as [<- | Hne]; [congruence |].
    by rewrite lookup_insert_ne.
  - intros k l Hk. destruct (decide (Part.fieldname p = k)) as [<- | Hne].
    + rewrite lookup_insert_eq in Hk. simplify_eq. split.
      * by destruct (default [] _).
      * apply Forall_app. split.
        -- destruct (req_files st !! Part.fieldname p) as [l0 |] eqn:Hl0; simpl;
             [by apply (Hacc _ _ Hl0) | constructor].
        -- by repeat constructor.
    + rewrite lookup_insert_ne in Hk by done. by apply Hacc.
Qed.

Lemma upload_parts_slots_ok ps st w st' w' :
  upload_parts ps st w = (inr st', w') → slots_ok st → slots_ok st'.
Proof.
  revert st w. induction ps as [| p ps IH]; intros st w; simpl.
  { intros ?; by simplify_eq. }
  destruct (upload_part p st w) as [[[e |] st1] w1] eqn:Hp; [done |].
  intros Hps Hok. eapply IH; [done |]. by eapply upload_part_slots_ok.
Qed.


End Intake.



(** X7. A request that is not multipart (a JSON body, say) is never
    accepted: the middleware passes it on without files, so it stops at one
    of the three gates with a 400, at the document gate at the latest, and
    the world is left exactly as it was. *)
Theorem X7_not_multipart_never_accepted `{Platform} (inc : Incoming) (w : World) :
  in_parts inc = None →
  ∃ r, POST_api_bookings inc w = (Responded r, w)
       ∧ gate_rejection r
       ∧ status r = 400.
Proof.
  intros Hnone. unfold POST_api_bookings, upload_fields. rewrite Hnone.
  unfold post_booking, gate_rejection. simpl.
  destruct (missing_required (in_body inc)); [exists MissingFields; auto |].
  destruct (not_verified (in_body inc)); [exists VerificationRequired; auto |].
  exists MissingDocuments; auto.
Qed.

Lemma X7_witness :
  ∃ r, @POST_api_bookings demo_platform (mkIncoming demo_fields None ∅) demo_world
       = (Responded r, demo_world)
       ∧ gate_rejection r
       ∧ status r = 400.
Proof.
  exact (@X7_not_multipart_never_accepted demo_platform
           (mkIncoming demo_fields None ∅) demo_world eq_refl).
Defined.

(** X8. When the middleware hands a multipart request to the handler, every
    entry of [req.files] belongs to one of the two declared slots and holds
    exactly one file, filed under that slot, whose declared content type
    begins with [image/], whose size is at most 5 * 1024 * 1024 bytes and
    which is in the upload directory. *)
Theorem X8_req_files_shape `{Platform} (inc : Incoming) (w w1 : World) (req : Req)
    (fs : gmap string (list File.t)) (k : string) (l : list File.t) :
  upload_fields inc w = (inr req, w1) →
  files req = Some fs →
  fs !! k = Some l →
  (k = "aadharPhoto" ∨ k = "licensePhoto")
  ∧ ∃ f, l = [f]
         ∧ File.fieldname f = k
         ∧ String.prefix "image/" (File.mimetype f) = true
         ∧ File.size f ≤ 5 * 1024 * 1024
         ∧ File.filename f ∈ uploads w1.
Proof.
  intros Hup Hfs Hk.
  destruct (upload_fields_on_disk _ _ _ _ Hup) as [_ Hdisk].
  unfold upload_fields in Hup. destruct (in_parts inc) as [ps |]; [| by simplify_eq].
  destruct (upload_parts ps upload_init w) as [[e | st] w'] eqn:Hps; [done |].
  simplify_eq. simpl in *. simplify_eq.
  destruct (upload_parts_slots_ok _ _ _ _ _ Hps upload_init_slots_ok)
    as (Hnone & Hroom & Hdecl & Hacc).
  destruct (Hacc _ _ Hk) as [Hne Hall].
  destruct (filesLeft st !! k) as [n |] eqn:Hleft;
    [| by rewrite (Hnone _ Hleft) in Hk].
  split.
  - destruct (decide (k ∈ declared_slots)) as [Hin | Hout];
      [| by rewrite (Hdecl _ Hout) in Hleft].
    unfold declared_slots, fields in Hin. simpl in Hin.
    apply elem_of_cons in Hin as [-> | Hin]; [by left |].
    apply elem_of_cons in Hin as [-> | Hin]; [by right |].
    by apply elem_of_nil in Hin.
  - specialize (Hroom _ _ Hleft). rewrite Hk in Hroom. simpl in Hroom.
    destruct l as [| f [| f' l]]; [done | | simpl in Hroom; lia].
    exists f. apply Forall_singleton in Hall as (Hf & Hm & Hs).
    repeat split; try done.
    eapply (Hdisk _ k [f] f); [done | done | apply list_elem_of_here].
Qed.

Lemma X8_witness :
  ∃ f, File.fieldname f = "licensePhoto"
       ∧ File.filename f ∈ uploads demo_world.
Proof.
  destruct (@X8_req_files_shape demo_platform
              (demo_incoming demo_fields demo_parts) empty_world demo_world
              (demo_req demo_fields)
              (default ∅ (files (demo_req demo_fields))) "licensePhoto"
              [File.mk "licensePhoto" "photo.jpg" "image/jpeg"
                 "1700000000001-tok1.jpg" 2048])
    as (_ & f & _ & Hf & _ & _ & Hdisk).
  - vm_compute; reflexivity.
  - vm_compute; reflexivity.
  - vm_compute; reflexivity.
  - exists f. split; [exact Hf | exact Hdisk].
Defined.



(** X12. The photo references of a booking created by the route resolve:
    each is [/uploads/] followed by the name of a file that is in the upload
    directory when the route answers. *)
Theorem X12_photo_references_resolve `{Platform} (inc : Incoming) (w w' : World)
    (msg id : string) (b : Booking.t) :
  POST_api_bookings inc w
  = (Responded (mkResponse 201 (JCreated msg id b)), w') →
  ∃ n1 n2,
    Booking.aadharPhoto b = "/uploads/" +:+ n1 ∧ n1 ∈ uploads w'
    ∧ Booking.licensePhoto b = "/uploads/" +:+ n2 ∧ n2 ∈ uploads w'.
Proof.
  unfold POST_api_bookings.
  destruct (upload_fields inc w) as [[e | req] w1] eqn:Hup; [done |].
  destruct (post_booking req w1) as [r w2] eqn:Hpost. intros ?; simplify_eq.
  destruct (upload_fields_on_disk _ _ _ _ Hup) as [_ Hdisk].
  apply post_booking_record in Hpost
    as (af & lf & Haf & Hlf & Hval & _ & _ & _ & _ & Hu).
  apply validate_Some in Hval as (_ & _ & _ & _ & _ & Hap & _ & Hlp & _).
  simpl in *. exists (File.filename af), (File.filename lf). rewrite Hu.
  unfold file_of in Haf, Hlf.
  destruct (files req) as [fs |]; [| done]. simpl in *.
  destruct (fs !! "aadharPhoto") as [[| a la] |] eqn:Hsa; simplify_eq.
  destruct (fs !! "licensePhoto") as [[| l ll] |] eqn:Hsl; simplify_eq.
  simpl in *. simplify_eq.
  repeat split; try done.
  - apply (Hdisk fs "aadharPhoto" (af :: la) af eq_refl Hsa), list_elem_of_here.
  - apply (Hdisk fs "licensePhoto" (lf :: ll) lf eq_refl Hsl), list_elem_of_here.
Qed.

Lemma X12_witness :
  ∃ n1 n2,
    n1 ∈ uploads (snd (@POST_api_bookings demo_platform
                         (demo_incoming demo_fields demo_parts) empty_world))
    ∧ n2 ∈ uploads (snd (@POST_api_bookings demo_platform
                           (demo_incoming demo_fields demo_parts) empty_world)).
Proof.
  assert (∃ id b, @POST_api_bookings demo_platform
                    (demo_incoming demo_fields demo_parts) empty_world
                  = (Responded (mkResponse 201 (JCreated "Booking created" id b)),
                     snd (@POST_api_bookings demo_platform
                            (demo_incoming demo_fields demo_parts) empty_world)))
    as (id & b & Hpost) by (eexists _, _; vm_compute; reflexivity).
  destruct (@X12_photo_references_resolve demo_platform _ _ _ _ _ _ Hpost)
    as (n1 & n2 & _ & H1 & _ & H2).
  exists n1, n2. split; [exact H1 | exact H2].
Defined.

(** ** The collection over time *)

Lemma find_by_id_NoDup (l : list Booking.t) (b : Booking.t) :
  NoDup (Booking.bookingId <$> l) →
  b ∈ l →
  List.find (λ x, bool_decide (Booking.bookingId x = Booking.bookingId b)) l
  = Some b.
Proof.
  induction l as [| x l IH]; intros Hnd Hb; [by apply elem_of_nil in Hb |].
  rewrite fmap_cons in Hnd. apply NoDup_cons in Hnd as [Hx Hnd]. simpl.
  apply elem_of_cons in Hb as [<- | Hb].
  - by rewrite bool_decide_eq_true_2.
  - rewrite bool_decide_eq_false_2; [by apply IH |].
    intros Heq. apply Hx. rewrite Heq. by apply list_elem_of_fmap_2.
Qed.

Section Steps.
Context `{Platform}.

(** The clock readings only go forward through the middleware. *)
Lemma upload_part_ticks p st w :
  (ticks w ≤ ticks (snd (upload_part p st w)))%nat.
Proof.
  unfold upload_part. case_bool_decide; [done |].
  destruct (filesLeft st !! Part.fieldname p) as [[| n] |]; try done.
  destruct (fileFilter p) as [e | []]; try done.
  simpl. destruct (limit_reached (Part.size p)); simpl; lia.
Qed.

Lemma upload_parts_ticks ps st w :
  (ticks w ≤ ticks (snd (upload_parts ps st w)))%nat.
Proof.
  revert st w. induction ps as [| p ps IH]; intros st w; [done |].
  simpl. pose proof (upload_part_ticks p st w) as Hp.
  destruct (upload_part p st w) as [[[e |] st'] w']; simpl in *.
  - pose proof (abort_ticks (uploadedFiles st') ps w'). lia.
  - specialize (IH st' w'). lia.
Qed.

Lemma upload_fields_ticks inc w :
  (ticks w ≤ ticks (snd (upload_fields inc w)))%nat.
Proof.
  unfold upload_fields. destruct (in_parts inc) as [ps |]; [| done].
  pose proof (upload_parts_ticks ps upload_init w) as Hp.
  by destruct (upload_parts ps upload_init w) as [[e | st] w'].
Qed.

(** A booking stored by the handler is well formed. *)
Lemma validate_well_formed tok b0 af lf t b :
  flag_true (prop b0 "aadhaarVerified") →
  validate (booking_doc ("DH-" +:+ tok) b0 af lf) t = Some b →
  well_formed b.
Proof.
  intros Hflag Hval.
  apply validate_Some in Hval
    as (Hid & _ & Hn & Hc & Ha & Hap & Hl & Hlp & Hp & Hd & _ & _ & Hpm & _ & Hav & _).
  simpl in *.
  apply required_String_Some in Hn as [_ Hn], Hc as [_ Hc], Ha as [_ Ha],
    Hl as [_ Hl], Hp as [_ Hp], Hd as [_ Hd].
  apply cast_paymentMode_or in Hpm as (Hpm & _).
  unfold well_formed. rewrite Hid, Hap, Hlp, Hav.
  repeat split; try done.
  - by destruct tok.
  - by destruct (File.filename af).
  - by destruct (File.filename lf).
  - by apply flag_true_stored.
Qed.

(** One request: the clock readings go forward, and the collection is as
    before or has one more booking at its end, well formed, under an id not
    used before, stamped with a reading taken during the request. *)
Lemma serve_step rq w :
  (ticks w ≤ ticks (snd (serve rq w)))%nat
  ∧ (bookings (snd (serve rq w)) = bookings w
     ∨ ∃ b k,
         bookings (snd (serve rq w)) = bookings w ++ [b]
         ∧ well_formed b
         ∧ (Booking.bookingId b ∉ (Booking.bookingId <$> bookings w))
         ∧ Booking.createdAt b = Date_now k
         ∧ (ticks w ≤ k)%nat ∧ (k < ticks (snd (serve rq w)))%nat).
Proof.
  destruct rq as [| inc | id | req]; simpl; try (split; [lia | by left]).
  unfold POST_api_bookings.
  pose proof (upload_fields_ticks inc w) as Ht.
  pose proof (upload_fields_bookings inc w) as Hb.
  destruct (upload_fields inc w) as [[e | req] w1]; simpl in *;
    [split; [done | by left] |].
  destruct (post_booking req w1) as [r w2] eqn:Hpost. simpl.
  destruct (post_booking_cases req w1) as [[_ Hw] | [[_ Hw] | (b & Hr & Hw)]];
    rewrite Hpost in *; simpl in *; subst w2; simpl.
  - split; [done | by left].
  - split; [lia | by left].
  - split; [lia |]. right. exists b, (ticks w1). subst r.
    apply post_booking_record in Hpost
      as (af & lf & _ & _ & Hval & _ & Hflag & Hfresh & _ & _).
    rewrite <- Hb. split; [done |].
    split; [by eapply validate_well_formed |]. split; [done |].
    split; [| lia].
    by apply validate_Some in Hval as (_ & _ & _ & _ & _ & _ & _ & _ & _ & _
                                        & _ & _ & _ & _ & _ & ?).
Qed.

Lemma run_cons rq rqs w : run (rq :: rqs) w = run rqs (snd (serve rq w)).
Proof. done. Qed.

(** Runs keep the ids pairwise distinct. *)
Lemma run_NoDup rqs w :
  NoDup (Booking.bookingId <$> bookings w) →
  NoDup (Booking.bookingId <$> bookings (run rqs w)).
Proof.
  revert w. induction rqs as [| rq rqs IH]; intros w Hnd; [done |].
  rewrite run_cons. apply IH.
  destruct (serve_step rq w) as [_ [-> | (b & k & -> & _ & Hfresh & _)]]; [done |].
  rewrite fmap_app. apply NoDup_app. repeat split; [done | | apply NoDup_singleton].
  intros x Hx Hx'%list_elem_of_singleton. by subst x.
Qed.

(** Runs only append. *)
Lemma run_appends rqs w :
  ∃ new, bookings (run rqs w) = bookings w ++ new.
Proof.
  revert w. induction rqs as [| rq rqs IH]; intros w.
  { exists []. by rewrite app_nil_r. }
  rewrite run_cons. destruct (IH (snd (serve rq w))) as [new ->].
  destruct (serve_step rq w) as [_ [-> | (b & k & -> & _)]]; [by exists new |].
  exists (b :: new). by rewrite <- app_assoc.
Qed.

End Steps.

(** X13. Fetching by id answers 404 exactly when no booking carries that
    id; when it answers 200, the booking it returns is in the collection
    and carries the id asked for. *)
Theorem X13_get_booking_found_iff (id : string) (w : World) :
  (get_booking id w = NotFound ↔ id ∉ (Booking.bookingId <$> bookings w))
  ∧ status NotFound = 404
  ∧ (∀ b, get_booking id w = mkResponse 200 (JBooking b) →
          b ∈ bookings w ∧ Booking.bookingId b = id)
  ∧ (id ∈ (Booking.bookingId <$> bookings w) →
     ∃ b, get_booking id w = mkResponse 200 (JBooking b)).
Proof.
  unfold get_booking, findOne.
  destruct (List.find _ (bookings w)) as [b |] eqn:Hfind.
  - apply find_some in Hfind as [Hin Hid].
    apply list_elem_of_In in Hin. apply bool_decide_eq_true_1 in Hid.
    split; [| split; [done | split]].
    + split; [done |]. intros Hno. exfalso. apply Hno. rewrite <- Hid.
      by apply list_elem_of_fmap_2.
    + intros b' ?; by simplify_eq.
    + intros _. by exists b.
  - split; [| split; [done | split]].
    + split; [| done]. intros _ (b & -> & Hb)%list_elem_of_fmap.
      apply list_elem_of_In in Hb.
      pose proof (find_none _ _ Hfind b Hb) as Hf. simpl in Hf.
      by rewrite bool_decide_eq_true_2 in Hf.
    + done.
    + intros (b & -> & Hb)%list_elem_of_fmap. apply list_elem_of_In in Hb.
      pose proof (find_none _ _ Hfind b Hb) as Hf. simpl in Hf.
      by rewrite bool_decide_eq_true_2 in Hf.
Qed.

(** X14. In a collection whose ids are pairwise distinct, every booking is
    fetched by its own id: the answer is 200 with that very booking. *)
Theorem X14_every_booking_fetchable (w : World) (b : Booking.t) :
  NoDup (Booking.bookingId <$> bookings w) →
  b ∈ bookings w →
  get_booking (Booking.bookingId b) w = mkResponse 200 (JBooking b).
Proof.
  intros Hnd Hb. unfold get_booking, findOne.
  by rewrite (find_by_id_NoDup _ b Hnd Hb).
Qed.

Lemma X14_witness :
  get_booking "DH-tok2" taken_world
  = mkResponse 200
      (JBooking
         (Booking.mk "DH-tok2" "B" "8888888888" "5678" "/uploads/a.jpg" "LIC2"
            "/uploads/l.jpg" "P" "Q" 0 0 "UPI" None true 0)).
Proof.
  apply (X14_every_booking_fetchable taken_world
           (Booking.mk "DH-tok2" "B" "8888888888" "5678" "/uploads/a.jpg" "LIC2"
              "/uploads/l.jpg" "P" "Q" 0 0 "UPI" None true 0)).
  - simpl. apply NoDup_singleton.
  - apply list_elem_of_here.
Defined.

(** X15. Whatever requests are served, in whatever order and with whatever
    outcome, a collection with pairwise distinct ids and well-formed
    bookings stays so: every booking has an id beginning with [DH-], six
    non-empty text fields, photo references beginning with [/uploads/], a
    [paymentMode] that is ["UPI"] or ["Cash"] and the verified flag
    [true]. *)
Theorem X15_store_invariant `{Platform} (rqs : list Request) (w : World) :
  store_ok w → store_ok (run rqs w).
Proof.
  revert w. induction rqs as [| rq rqs IH]; intros w [Hnd Hwf]; [done |].
  rewrite run_cons. apply IH. unfold store_ok.
  destruct (serve_step rq w) as [_ [-> | (b & k & -> & Hb & Hfresh & _)]]; [done |].
  split.
  - rewrite fmap_app. apply NoDup_app.
    repeat split; [done | | apply NoDup_singleton].
    intros x Hx Hx'%list_elem_of_singleton. by subst x.
  - apply Forall_app. split; [done | by apply Forall_singleton].
Qed.

Lemma X15_witness :
  store_ok (@run demo_platform
              [PostBooking (demo_incoming demo_fields demo_parts);
               GetBooking "DH-tok2";
               PostBooking (demo_incoming cash_fields demo_parts)]
              empty_world).
Proof.
  apply (@X15_store_invariant demo_platform). split.
  - apply NoDup_nil_2.
  - apply Forall_nil_2.
Defined.

(** X16. No request removes or changes a booking: after any run the
    collection is the old one followed by what was added, and, when the
    ids were pairwise distinct, every booking that was there is still
    fetched by its id, unchanged. *)
Theorem X16_bookings_never_lost `{Platform} (rqs : list Request) (w : World)
    (b : Booking.t) :
  NoDup (Booking.bookingId <$> bookings w) →
  b ∈ bookings w →
  (∃ new, bookings (run rqs w) = bookings w ++ new)
  ∧ get_booking (Booking.bookingId b) (run rqs w) = mkResponse 200 (JBooking b).
Proof.
  intros Hnd Hb. destruct (run_appends rqs w) as [new Hnew].
  split; [by exists new |].
  unfold get_booking, findOne.
  rewrite (find_by_id_NoDup _ b (run_NoDup rqs w Hnd)); [done |].
  rewrite Hnew. apply elem_of_app. by left.
Qed.

Lemma X16_witness :
  get_booking "DH-tok2"
    (@run demo_platform
       [PostBooking (demo_incoming demo_fields demo_parts);
        PostBooking (demo_incoming cash_fields demo_parts);
        ListBookings (demo_req demo_fields)]
       taken_world)
  = mkResponse 200
      (JBooking
         (Booking.mk "DH-tok2" "B" "8888888888" "5678" "/uploads/a.jpg" "LIC2"
            "/uploads/l.jpg" "P" "Q" 0 0 "UPI" None true 0)).
Proof.
  refine (proj2 (@X16_bookings_never_lost demo_platform _ taken_world
    (Booking.mk "DH-tok2" "B" "8888888888" "5678" "/uploads/a.jpg" "LIC2"
       "/uploads/l.jpg" "P" "Q" 0 0 "UPI" None true 0) _ _)).
  - simpl. apply NoDup_singleton.
  - apply list_elem_of_here.
Defined.

(** X17. With a clock that never runs backwards, insertion order and
    [createdAt] agree: if the bookings in insertion order have
    non-decreasing [createdAt], each a reading taken earlier, then so they
    have after any run of requests. *)
Theorem X17_createdAt_follows_insertion `{Platform} (rqs : list Request)
    (w : World) :
  monotone_clock →
  stamped w →
  oldest_first (bookings w) →
  stamped (run rqs w) ∧ oldest_first (bookings (run rqs w)).
Proof.
  intros Hmono. revert w.
  induction rqs as [| rq rqs IH]; intros w Hst Hsorted; [done |].
  rewrite run_cons.
  destruct (serve_step rq w)
    as [Ht [Hb | (b & k & Hb & _ & _ & Hc & Hk1 & Hk2)]]; apply IH.
  - intros x Hx. rewrite Hb in Hx. destruct (Hst x Hx) as (j & Hj & Hxj).
    exists j. split; [lia | done].
  - by rewrite Hb.
  - intros x Hx. rewrite Hb in Hx.
    apply elem_of_app in Hx as [Hx | ->%list_elem_of_singleton].
    + destruct (Hst x Hx) as (j & Hj & Hxj). exists j. split; [lia | done].
    + by exists k.
  - rewrite Hb. unfold oldest_first. apply StronglySorted_app.
    split; [| split; [done | repeat constructor]].
    intros x y Hx ->%list_elem_of_singleton.
    destruct (Hst x Hx) as (j & Hj & ->). rewrite Hc. apply Hmono. lia.
Qed.

Lemma X17_witness :
  oldest_first
    (bookings (@run demo_platform
                 [PostBooking (demo_incoming demo_fields demo_parts);
                  PostBooking (demo_incoming cash_fields demo_parts)]
                 empty_world)).
Proof.
  refine (proj2 (@X17_createdAt_follows_insertion demo_platform _ empty_world _ _ _)).
  - intros n m Hnm. simpl. lia.
  - intros b Hb. by apply elem_of_nil in Hb.
  - constructor.
Defined.

(** X18. The listing keeps the newest: a booking of the collection that is
    not listed is no newer than any booking that is; and a collection of at
    most 200 bookings is listed in full. *)
Theorem X18_listing_keeps_newest (w : World) :
  (∀ a b, a ∈ find_recent w → b ∈ bookings w → b ∉ find_recent w →
          Booking.createdAt b ≤ Booking.createdAt a)
  ∧ ((length (bookings w) ≤ 200)%nat → find_recent w ≡ₚ bookings w).
Proof.
  unfold find_recent.
  pose proof (StronglySorted_merge_sort newer_first (bookings w)) as Hs.
  pose proof (merge_sort_Permutation newer_first (bookings w)) as Hp.
  split.
  - intros a b Ha Hb Hnot.
    rewrite <- (take_drop 200 (merge_sort newer_first (bookings w))) in Hs, Hp.
    rewrite <- Hp in Hb. apply elem_of_app in Hb as [Hb | Hb]; [done |].
    apply (StronglySorted_app_1_elem_of _ _ _ _ _ Hs Ha Hb).
  - intros Hlen. rewrite take_ge; [done |].
    by rewrite (Permutation_length Hp).
Qed.

(** X19. Start-up ends with exit code 1 exactly when [MONGO_URI] is unset
    or empty, whatever else the environment holds; by then the upload
    directory has been dealt with all the same: it is created exactly when
    it does not exist, under the name given by [UPLOAD_DIR] or, when that is
    unset or empty, under [uploads]. *)
Theorem X19_start_requires_database_uri (env : gmap string string)
    (existsSync : string → bool) :
  (started (start env existsSync) = Exit 1
   ↔ env !! "MONGO_URI" = None ∨ env !! "MONGO_URI" = Some "")
  ∧ mkdirSync (start env existsSync)
    = mkdirSync (start (delete "MONGO_URI" env) existsSync)
  ∧ (∀ d, mkdirSync (start env existsSync) = Some d ↔
          existsSync d = false
          ∧ d = default "uploads" (env_truthy env "UPLOAD_DIR"))
  ∧ (∀ port uri dir, started (start env existsSync) = Listening port uri dir →
       env !! "MONGO_URI" = Some uri
       ∧ dir = default "uploads" (env_truthy env "UPLOAD_DIR")
       ∧ port = match env_truthy env "PORT" with
                | Some p => inl p
                | None => inr 5000
                end).
Proof.
  unfold start, env_truthy. rewrite lookup_delete_eq.
  rewrite (lookup_delete_ne env "MONGO_URI" "UPLOAD_DIR") by done.
  destruct (env !! "MONGO_URI") as [uri |] eqn:Huri;
    [case_bool_decide as Hempty; [subst uri |] |]; simpl.
  - split; [split; [by right | done] |]. split; [done |]. split; [| done].
    intros d. destruct (existsSync _) eqn:Hex; simpl; split;
      try (by intros ?; simplify_eq); intros [? ->]; congruence.
  - split; [split; [done | by intros [? | ?]; simplify_eq] |].
    split; [done |]. split.
    + intros d. destruct (existsSync _) eqn:Hex; simpl; split;
        try (by intros ?; simplify_eq); intros [? ->]; congruence.
    + intros port uri' dir ?; by simplify_eq.
  - split; [split; [by left | done] |]. split; [done |]. split; [| done].
    intros d. destruct (existsSync _) eqn:Hex; simpl; split;
      try (by intros ?; simplify_eq); intros [? ->]; congruence.
Qed.

(** X20. When the save fails after the middleware has stored the files,
    the route answers 500 and the files stay: every file of [req.files] is
    still in the upload directory, nothing that was there is gone, and the
    collection is unchanged. *)
Theorem X20_files_orphaned_on_server_error `{Platform} (inc : Incoming)
    (w w1 w2 : World) (req : Req) :
  upload_fields inc w = (inr req, w1) →
  post_booking req w1 = (ServerError, w2) →
  POST_api_bookings inc w = (Responded ServerError, w2)
  ∧ bookings w2 = bookings w
  ∧ uploads w ⊆ uploads w2
  ∧ ∀ fs slot l f, files req = Some fs → fs !! slot = Some l → f ∈ l →
      File.filename f ∈ uploads w2.
Proof.
  intros Hup Hpost.
  pose proof (upload_fields_bookings inc w) as Hb. rewrite Hup in Hb.
  destruct (upload_fields_on_disk _ _ _ _ Hup) as [Hsub Hdisk].
  destruct (post_booking_world req w1) as [Hu Hbs]. rewrite Hpost in Hu, Hbs.
  simpl in *. split; [unfold POST_api_bookings; by rewrite Hup, Hpost |].
  rewrite Hu. split; [| done].
  destruct Hbs as [-> | (msg & id & b & Hr & _)]; [done | done].
Qed.

Lemma X20_witness :
  @POST_api_bookings demo_platform
    (demo_incoming (<["paymentMode" := JStr "Card"]> demo_fields) demo_parts)
    empty_world
  = (Responded ServerError,
     snd (@post_booking demo_platform
            (demo_req (<["paymentMode" := JStr "Card"]> demo_fields)) demo_world)).
Proof.
  refine (proj1
    (@X20_files_orphaned_on_server_error demo_platform
       (demo_incoming (<["paymentMode" := JStr "Card"]> demo_fields) demo_parts)
       empty_world demo_world _
       (demo_req (<["paymentMode" := JStr "Card"]> demo_fields)) _ _)).
  - vm_compute; reflexivity.
  - vm_compute; reflexivity.
Defined.

(** X21. The listing is empty only for an empty collection, and otherwise
    it begins with a booking whose [createdAt] is the latest of the whole
    collection. *)
Theorem X21_listing_starts_with_latest (w : World) :
  (find_recent w = [] ↔ bookings w = [])
  ∧ ∀ a, head (find_recent w) = Some a →
      a ∈ bookings w
      ∧ ∀ b, b ∈ bookings w → Booking.createdAt b ≤ Booking.createdAt a.
Proof.
  unfold find_recent.
  pose proof (StronglySorted_merge_sort newer_first (bookings w)) as Hs.
  pose proof (merge_sort_Permutation newer_first (bookings w)) as Hp.
  destruct (merge_sort newer_first (bookings w)) as [| x l] eqn:Hsorted.
  - apply Permutation_nil_l in Hp. rewrite <- Hp. by split.
  - split.
    + split; [done |]. intros Hnil. rewrite Hnil in Hp.
      by apply Permutation_nil_r in Hp.
    + simpl. intros a ?; simplify_eq. split.
      * rewrite <- Hp. apply list_elem_of_here.
      * intros b Hb. rewrite <- Hp in Hb.
        apply StronglySorted_cons in Hs as [Hall _].
        apply elem_of_cons in Hb as [-> | Hb]; [done |].
        rewrite Forall_forall in Hall. by apply Hall.
Qed.

(** A text field sent as an object with a string [_id] is stored as that
    [_id]. *)
Example example_object_with_id :
  ∃ id b w',
    @POST_api_bookings demo_platform
      (demo_incoming
         (<["name" := JObject false [("_id", JStr "abc")]]> demo_fields)
         demo_parts)
      empty_world
    = (Responded (mkResponse 201 (JCreated "Booking created" id b)), w')
    ∧ Booking.name b = "abc".
Proof. eexists _, _, _. split; [vm_compute; reflexivity | done]. Qed.

(** A text field sent twice arrives as an array and fails in the save. *)
Example example_array_field :
  fst (@POST_api_bookings demo_platform
         (demo_incoming
            (<["name" := JObject true [("0", JStr "A"); ("1", JStr "B")]]>
               demo_fields)
            demo_parts)
         empty_world)
  = Responded ServerError.
Proof. vm_compute; reflexivity. Qed.

(** An image of exactly 5 * 1024 * 1024 bytes is stored or refused as the
    installed library has it; one byte more is refused by both. *)
Example example_exact_limit :
  (∃ st w',
     @upload_parts demo_platform
       [Part.mk "aadharPhoto" "a.png" "image/png" (5 * 1024 * 1024)]
       upload_init empty_world
     = (inr st, w'))
  ∧ fst (@upload_parts strict_platform
           [Part.mk "aadharPhoto" "a.png" "image/png" (5 * 1024 * 1024)]
           upload_init empty_world)
    = inl (LIMIT_FILE_SIZE "aadharPhoto")
  ∧ fst (@upload_parts demo_platform
           [Part.mk "aadharPhoto" "a.png" "image/png" (5 * 1024 * 1024 + 1)]
           upload_init empty_world)
    = inl (LIMIT_FILE_SIZE "aadharPhoto").
Proof.
  split; [eexists _, _; vm_compute; reflexivity |].
  split; vm_compute; reflexivity.
Qed.
